(** * Task manager page: the client-side synchronisation state machine

    A shallow embedding of [src/app/page.tsx].  The React component
    [TaskManagerPage] keeps its data in [useState] cells and one [useRef]
    cell; its handlers are plain functions or [async] functions around one
    awaited HTTP call.  Here the cells are the fields of one record, every
    handler is a function on that record, and an [async] handler is split at
    its [await] into the part that runs at the call and the continuation that
    runs when the response is delivered.  The effects of the component run
    after the handler whose state change triggers them, and [step] puts the
    three together with the render that follows.  The markup is not part of
    the model, apart from which controls exist while a user is logged in. *)

From stdpp Require Import base option list strings gmap pretty.

Local Open Scope string_scope.
Local Open Scope list_scope.

(** ** JavaScript values used by the page *)

(** [a || b] on values of type [string | undefined]: the empty string and
    [undefined] are falsy. *)
Definition jsOr (a b : option string) : option string :=
  match a with
  | Some (String _ _) => a
  | _ => b
  end.

(** Truthiness of a [string | undefined] value, as tested by [if (v)]. *)
Definition truthy (a : option string) : bool :=
  match a with
  | Some (String _ _) => true
  | _ => false
  end.

(** [n.toString()] of an integral number. *)
Definition toString (n : Z) : string := pretty n.

(** ** Types *)

Inductive Priority := Low | Medium | High.
Inductive Status := Pending | InProgress | Completed.

Global Instance Priority_eq_dec : EqDecision Priority.
Proof. solve_decision. Defined.
Global Instance Status_eq_dec : EqDecision Status.
Proof. solve_decision. Defined.

Module IUser.
Record t := mk {
  _id : string;
  id : option string;
  username : string;
  email : string
}.
Global Instance IUser_eq_dec : EqDecision t.
Proof. solve_decision. Defined.
End IUser.

Module ITask.
Record t := mk {
  _id : string;
  id : option string;
  title : string;
  description : string;
  priority : Priority;
  status : Status;
  dueDate : option string;
  assignedTo : option IUser.t;
  createdBy : IUser.t;
  createdAt : string;
  updatedAt : string
}.
Global Instance ITask_eq_dec : EqDecision t.
Proof. solve_decision. Defined.
End ITask.

Module ILog.
Record t := mk {
  _id : string;
  id : option string;
  action : string;
  details : option string;
  performedBy : option (string * string);
  user : option (string * string);
  createdAt : string;
  taskId : option string;
  task : option string
}.
Global Instance ILog_eq_dec : EqDecision t.
Proof. solve_decision. Defined.
End ILog.

Module INotification.
Record t := mk {
  _id : string;
  id : option string;
  user : string;
  message : string;
  isRead : bool;
  task : option string;
  createdAt : string;
  updatedAt : string
}.
Global Instance INotification_eq_dec : EqDecision t.
Proof. solve_decision. Defined.

(** [{ ...n, isRead: true }] *)
Definition withRead (n : t) : t :=
  mk (_id n) (id n) (user n) (message n) true (task n)
     (createdAt n) (updatedAt n).

(** [n._id || n.id], the key the read handlers compare against. *)
Definition key (n : t) : option string := jsOr (Some (_id n)) (id n).
End INotification.

(** An entry of the [toasts] cell: [{ id, message }]. *)
Module ToastItem.
Record t := mk { id : string; message : string }.
Global Instance ToastItem_eq_dec : EqDecision t.
Proof. solve_decision. Defined.
End ToastItem.

(** The task form ([taskForm]) and the payload [submitTask] builds from
    it, where an empty [dueDate] or [assignedTo] becomes [null]. *)
Module TaskForm.
Record t := mk {
  title : string;
  description : string;
  priority : Priority;
  status : Status;
  dueDate : string;
  assignedTo : string
}.
End TaskForm.

Module TaskPayload.
Record t := mk {
  title : string;
  description : string;
  priority : Priority;
  status : Status;
  dueDate : option string;
  assignedTo : option string
}.
Global Instance TaskPayload_eq_dec : EqDecision t.
Proof. solve_decision. Defined.
End TaskPayload.

(** [getTaskId] and [getUserId]: [x._id || x.id || ""]. *)
Definition getTaskId (task : ITask.t) : string :=
  default "" (jsOr (jsOr (Some (ITask._id task)) (ITask.id task)) (Some "")).

Definition getUserId (user : IUser.t) : string :=
  default "" (jsOr (jsOr (Some (IUser._id user)) (IUser.id user)) (Some "")).


(** ** HTTP calls and their responses *)

(** The calls the page makes through [api]; a list endpoint's query
    parameters are kept as the pairs set on its [URLSearchParams]. *)
Inductive Request :=
| PostRegister (username email password : string)
| PostLogin (email password : string)
| PostTask (payload : TaskPayload.t)
| PutTask (taskId : string) (payload : TaskPayload.t)
| GetUsers
| GetMyTasks (params : list (string * string))
| GetNotifications (userId : string)
| GetLogs (taskId : string)
| DeleteTask (taskId : string)
| PatchRead (userId notificationId : string)
| PatchMarkRead (userId : string).

Global Instance Request_eq_dec : EqDecision Request.
Proof. solve_decision. Defined.

(** What an awaited promise settles to.  A rejection carries
    [e?.response?.data?.message] when the server sent one. *)
Inductive Outcome (A : Type) :=
| Fulfilled (data : A)
| Rejected (message : option string).
Arguments Fulfilled {A} data.
Arguments Rejected {A} message.

(** [res.data] of a list endpoint: an array, or something else whose named
    field ([users], [tasks], [notifications], [logs]) is a list or is
    missing. *)
Inductive ListBody (A : Type) :=
| BodyArray (items : list A)
| BodyObject (field : option (list A)).
Arguments BodyArray {A} items.
Arguments BodyObject {A} field.

(** [Array.isArray(res.data) ? res.data : res.data?.field || []] *)
Definition listOf {A : Type} (body : ListBody A) : list A :=
  match body with
  | BodyArray items => items
  | BodyObject (Some items) => items
  | BodyObject None => []
  end.

(** [response.data] of the two PATCH endpoints. *)
Record PatchBody := mkPatchBody {
  success : bool;
  modifiedCount : string
}.

(** [res.data] of the login endpoint. *)
Record LoginBody := mkLoginBody {
  token : string;
  user : IUser.t
}.

Inductive Response :=
| ResRegister (o : Outcome unit)
| ResLogin (o : Outcome LoginBody)
| ResTask (o : Outcome ITask.t)
| ResUsers (o : Outcome (ListBody IUser.t))
| ResTasks (o : Outcome (ListBody ITask.t))
| ResNotifications (o : Outcome (ListBody INotification.t))
| ResLogs (o : Outcome (ListBody ILog.t))
| ResDelete (o : Outcome unit)
| ResPatch (o : Outcome (option PatchBody)).

(** The continuation of an [async] handler suspended at its [await], with
    the variables of the handler it still uses. *)
Inductive Await :=
| AwRegister
| AwLogin
| AwSubmitTask (editing : option ITask.t)
| AwFetchUsers
| AwFetchTasks
| AwFetchNotifications
| AwFetchLogs (taskId : string)
| AwDeleteTask (taskId : string)
| AwMarkNotificationRead (notificationId : string)
| AwMarkAllRead.

(** ** The cells of the component *)

Inductive Scope := ScopeAll | ScopeCreated | ScopeAssigned.

Global Instance Scope_eq_dec : EqDecision Scope.
Proof. solve_decision. Defined.

(** The values of one render that a handler created in that render closes
    over. *)
Record Closure := mkClosure {
  c_currentUser : option IUser.t;
  c_scope : Scope;
  c_filterStatus : string;
  c_filterPriority : string;
  c_searchTerm : string;
  c_notifications : list INotification.t
}.

(** A socket.io client object: whether its transport is up, whether the
    client still drives it (false once [disconnect()] was called on it), and
    the closure of its ["notification"] listener, when one is attached.  The
    ["connect"] listener only emits the ["register"] message, which touches
    no state of the page, and is left out. *)
Record SocketObj := mkSocket {
  sock_connected : bool;
  sock_active : bool;
  sock_onNotification : option Closure
}.

(** [localStorage]: the two items the page uses.  The ["currentUser"] item
    holds JSON text; [Some None] is text that [JSON.parse] rejects. *)
Record LocalStorage := mkStorage {
  ls_token : option string;
  ls_currentUser : option (option IUser.t)
}.

(** The page and the world it acts on.  The first eleven fields are the
    [useState] cells that hold data (the cells that only drive the view, the
    form contents and the panel toggles, are left out: a form's content is
    an argument of its submit event), [socketRef] is the [useRef] cell
    holding a handle into [sockets], [unreadMemo] is the cache behind the
    [useMemo] of [unreadCount], and [effectSocket] is the [socket] constant
    that the last run of the socket effect left to its cleanup.  The rest is
    outside React:
    the socket objects, the browser's [localStorage], the HTTP calls issued
    so far (the position in [requests] identifies a call), the continuations
    waiting for a response, and the messages passed to [console.error]. *)
Record State := mkState {
  currentUser : option IUser.t;
  users : list IUser.t;
  tasks : list ITask.t;
  logsByTask : gmap string (list ILog.t);
  notifications : list INotification.t;
  toasts : list ToastItem.t;
  searchTerm : string;
  filterStatus : string;
  filterPriority : string;
  scope : Scope;
  loading : bool;
  socketRef : option nat;
  unreadMemo : option (list INotification.t * nat);
  effectSocket : option nat;
  sockets : list SocketObj;
  localStorage : LocalStorage;
  requests : list Request;
  awaiting : gmap nat Await;
  console : list string
}.

(** The setters.  A [useState] setter takes the updater function, as in
    [setTasks((prev) => ...)]; a plain value [v] is the updater [const v]. *)
Definition setCurrentUser (f : option IUser.t → option IUser.t)
  (s : State) : State :=
  mkState (f (currentUser s)) (users s) (tasks s) (logsByTask s)
    (notifications s) (toasts s) (searchTerm s) (filterStatus s)
    (filterPriority s) (scope s) (loading s) (socketRef s) (unreadMemo s)
    (effectSocket s) (sockets s) (localStorage s) (requests s) (awaiting s)
    (console s).

Definition setUsers (f : list IUser.t → list IUser.t)
  (s : State) : State :=
  mkState (currentUser s) (f (users s)) (tasks s) (logsByTask s)
    (notifications s) (toasts s) (searchTerm s) (filterStatus s)
    (filterPriority s) (scope s) (loading s) (socketRef s) (unreadMemo s)
    (effectSocket s) (sockets s) (localStorage s) (requests s) (awaiting s)
    (console s).

Definition setTasks (f : list ITask.t → list ITask.t)
  (s : State) : State :=
  mkState (currentUser s) (users s) (f (tasks s)) (logsByTask s)
    (notifications s) (toasts s) (searchTerm s) (filterStatus s)
    (filterPriority s) (scope s) (loading s) (socketRef s) (unreadMemo s)
    (effectSocket s) (sockets s) (localStorage s) (requests s) (awaiting s)
    (console s).

Definition setLogsByTask
  (f : gmap string (list ILog.t) →
       gmap string (list ILog.t))
  (s : State) : State :=
  mkState (currentUser s) (users s) (tasks s) (f (logsByTask s))
    (notifications s) (toasts s) (searchTerm s) (filterStatus s)
    (filterPriority s) (scope s) (loading s) (socketRef s) (unreadMemo s)
    (effectSocket s) (sockets s) (localStorage s) (requests s) (awaiting s)
    (console s).

Definition setNotifications (f : list INotification.t → list INotification.t)
  (s : State) : State :=
  mkState (currentUser s) (users s) (tasks s) (logsByTask s) (f
    (notifications s)) (toasts s) (searchTerm s) (filterStatus s)
    (filterPriority s) (scope s) (loading s) (socketRef s) (unreadMemo s)
    (effectSocket s) (sockets s) (localStorage s) (requests s) (awaiting s)
    (console s).

Definition setToasts (f : list ToastItem.t → list ToastItem.t)
  (s : State) : State :=
  mkState (currentUser s) (users s) (tasks s) (logsByTask s) (notifications
    s) (f (toasts s)) (searchTerm s) (filterStatus s) (filterPriority s)
    (scope s) (loading s) (socketRef s) (unreadMemo s) (effectSocket s)
    (sockets s) (localStorage s) (requests s) (awaiting s) (console s).

Definition setSearchTerm (f : string → string)
  (s : State) : State :=
  mkState (currentUser s) (users s) (tasks s) (logsByTask s) (notifications
    s) (toasts s) (f (searchTerm s)) (filterStatus s) (filterPriority s)
    (scope s) (loading s) (socketRef s) (unreadMemo s) (effectSocket s)
    (sockets s) (localStorage s) (requests s) (awaiting s) (console s).

Definition setFilterStatus (f : string → string)
  (s : State) : State :=
  mkState (currentUser s) (users s) (tasks s) (logsByTask s) (notifications
    s) (toasts s) (searchTerm s) (f (filterStatus s)) (filterPriority s)
    (scope s) (loading s) (socketRef s) (unreadMemo s) (effectSocket s)
    (sockets s) (localStorage s) (requests s) (awaiting s) (console s).

Definition setFilterPriority (f : string → string)
  (s : State) : State :=
  mkState (currentUser s) (users s) (tasks s) (logsByTask s) (notifications
    s) (toasts s) (searchTerm s) (filterStatus s) (f (filterPriority s))
    (scope s) (loading s) (socketRef s) (unreadMemo s) (effectSocket s)
    (sockets s) (localStorage s) (requests s) (awaiting s) (console s).

Definition setScope (f : Scope → Scope)
  (s : State) : State :=
  mkState (currentUser s) (users s) (tasks s) (logsByTask s) (notifications
    s) (toasts s) (searchTerm s) (filterStatus s) (filterPriority s) (f (scope
    s)) (loading s) (socketRef s) (unreadMemo s) (effectSocket s) (sockets s)
    (localStorage s) (requests s) (awaiting s) (console s).

Definition setLoading (f : bool → bool)
  (s : State) : State :=
  mkState (currentUser s) (users s) (tasks s) (logsByTask s) (notifications
    s) (toasts s) (searchTerm s) (filterStatus s) (filterPriority s) (scope s)
    (f (loading s)) (socketRef s) (unreadMemo s) (effectSocket s) (sockets s)
    (localStorage s) (requests s) (awaiting s) (console s).

Definition with_socketRef (f : option nat → option nat)
  (s : State) : State :=
  mkState (currentUser s) (users s) (tasks s) (logsByTask s) (notifications
    s) (toasts s) (searchTerm s) (filterStatus s) (filterPriority s) (scope s)
    (loading s) (f (socketRef s)) (unreadMemo s) (effectSocket s) (sockets s)
    (localStorage s) (requests s) (awaiting s) (console s).

Definition with_unreadMemo
  (f : option (list INotification.t * nat) →
       option (list INotification.t * nat))
  (s : State) : State :=
  mkState (currentUser s) (users s) (tasks s) (logsByTask s) (notifications
    s) (toasts s) (searchTerm s) (filterStatus s) (filterPriority s) (scope s)
    (loading s) (socketRef s) (f (unreadMemo s)) (effectSocket s) (sockets s)
    (localStorage s) (requests s) (awaiting s) (console s).

Definition with_effectSocket (f : option nat → option nat)
  (s : State) : State :=
  mkState (currentUser s) (users s) (tasks s) (logsByTask s) (notifications
    s) (toasts s) (searchTerm s) (filterStatus s) (filterPriority s) (scope s)
    (loading s) (socketRef s) (unreadMemo s) (f (effectSocket s)) (sockets s)
    (localStorage s) (requests s) (awaiting s) (console s).

Definition with_sockets (f : list SocketObj → list SocketObj)
  (s : State) : State :=
  mkState (currentUser s) (users s) (tasks s) (logsByTask s) (notifications
    s) (toasts s) (searchTerm s) (filterStatus s) (filterPriority s) (scope s)
    (loading s) (socketRef s) (unreadMemo s) (effectSocket s) (f (sockets s))
    (localStorage s) (requests s) (awaiting s) (console s).

Definition with_localStorage (f : LocalStorage → LocalStorage)
  (s : State) : State :=
  mkState (currentUser s) (users s) (tasks s) (logsByTask s) (notifications
    s) (toasts s) (searchTerm s) (filterStatus s) (filterPriority s) (scope s)
    (loading s) (socketRef s) (unreadMemo s) (effectSocket s) (sockets s) (f
    (localStorage s)) (requests s) (awaiting s) (console s).

Definition with_requests (f : list Request → list Request)
  (s : State) : State :=
  mkState (currentUser s) (users s) (tasks s) (logsByTask s) (notifications
    s) (toasts s) (searchTerm s) (filterStatus s) (filterPriority s) (scope s)
    (loading s) (socketRef s) (unreadMemo s) (effectSocket s) (sockets s)
    (localStorage s) (f (requests s)) (awaiting s) (console s).

Definition with_awaiting (f : gmap nat Await → gmap nat Await)
  (s : State) : State :=
  mkState (currentUser s) (users s) (tasks s) (logsByTask s) (notifications
    s) (toasts s) (searchTerm s) (filterStatus s) (filterPriority s) (scope s)
    (loading s) (socketRef s) (unreadMemo s) (effectSocket s) (sockets s)
    (localStorage s) (requests s) (f (awaiting s)) (console s).

Definition with_console (f : list string → list string)
  (s : State) : State :=
  mkState (currentUser s) (users s) (tasks s) (logsByTask s) (notifications
    s) (toasts s) (searchTerm s) (filterStatus s) (filterPriority s) (scope s)
    (loading s) (socketRef s) (unreadMemo s) (effectSocket s) (sockets s)
    (localStorage s) (requests s) (awaiting s) (f (console s)).

(** ** Helper functions *)

Definition closure_of (s : State) : Closure :=
  mkClosure (currentUser s) (scope s) (filterStatus s) (filterPriority s)
    (searchTerm s) (notifications s).

Definition consoleError (what : string) : State → State :=
  with_console (λ c, c ++ [what]).

(** [await api.get(...)] and the like: the call goes out and the rest of
    the handler waits for its response. *)
Definition await (r : Request) (k : Await) (s : State) : State :=
  with_awaiting (λ a, <[length (requests s) := k]> a)
    (with_requests (λ rs, rs ++ [r]) s).

(** [showToast]: the toast's id is [Date.now().toString()]; [now] is the
    clock reading at the call. *)
Definition showToast (now : Z) (message : string) : State → State :=
  setToasts (λ prev, prev ++ [ToastItem.mk (toString now) message]).

(** [removeToast], the [onClose] of the rendered toast with that id (its
    close button and its five-second timer both call it). *)
Definition removeToast (id : string) : State → State :=
  setToasts (λ prev, filter (λ toast, ToastItem.id toast ≠ id) prev).

(** [e?.response?.data?.message || fallback] *)
Definition errorMsg (message : option string) (fallback : string) : string :=
  default fallback (jsOr message (Some fallback)).

(** ** Fetch functions *)

Definition fetchUsers (s : State) : State :=
  await GetUsers AwFetchUsers (setLoading (const true) s).

Definition fetchUsers_then (now : Z) (o : Outcome (ListBody IUser.t))
  (s : State) : State :=
  setLoading (const false)
    match o with
    | Fulfilled body => setUsers (const (listOf body)) s
    | Rejected _ =>
        showToast now "Failed to fetch users"
          (consoleError "Failed to fetch users:" s)
    end.

(** The query parameters [fetchTasks] sets, in the order it sets them. *)
Definition taskParams (env : Closure) : list (string * string) :=
  match c_scope env with
  | ScopeCreated => [("filter", "created")]
  | ScopeAssigned => [("filter", "assigned")]
  | ScopeAll => []
  end
  ++ (if decide (c_filterStatus env ≠ "all")
      then [("status", c_filterStatus env)] else [])
  ++ (if decide (c_filterPriority env ≠ "all")
      then [("priority", c_filterPriority env)] else [])
  ++ (if truthy (Some (c_searchTerm env))
      then [("q", c_searchTerm env)] else []).

Definition fetchTasks (env : Closure) (s : State) : State :=
  match c_currentUser env with
  | None => s
  | Some _ =>
      await (GetMyTasks (taskParams env)) AwFetchTasks
        (setLoading (const true) s)
  end.

Definition fetchTasks_then (now : Z) (o : Outcome (ListBody ITask.t))
  (s : State) : State :=
  setLoading (const false)
    match o with
    | Fulfilled body => setTasks (const (listOf body)) s
    | Rejected _ =>
        showToast now "Failed to fetch tasks"
          (consoleError "Failed to fetch tasks:" s)
    end.

Definition fetchNotifications (env : Closure) (s : State) : State :=
  match c_currentUser env with
  | None => s
  | Some u => await (GetNotifications (getUserId u)) AwFetchNotifications s
  end.

Definition fetchNotifications_then (o : Outcome (ListBody INotification.t))
  (s : State) : State :=
  match o with
  | Fulfilled body => setNotifications (const (listOf body)) s
  | Rejected _ => consoleError "Failed to fetch notifications:" s
  end.

Definition fetchLogs (taskId : string) (s : State) : State :=
  await (GetLogs taskId) (AwFetchLogs taskId) s.

Definition fetchLogs_then (taskId : string) (now : Z)
  (o : Outcome (ListBody ILog.t)) (s : State) : State :=
  match o with
  | Fulfilled body => setLogsByTask (λ p, <[taskId := listOf body]> p) s
  | Rejected _ =>
      showToast now "Failed to fetch task logs"
        (consoleError "Failed to fetch logs:" s)
  end.

(** ** The push handler *)

(** [onNotification], the ["notification"] listener.  [env] is the render
    the listener was created in: its [fetchTasks] is that render's.  The
    mirror of the toast as a browser notification touches no state of the
    page and is left out. *)
Definition onNotification (env : Closure) (now : Z)
  (notif : INotification.t) (s : State) : State :=
  fetchTasks env
    (showToast now (INotification.message notif)
       (setNotifications (λ prev, notif :: prev) s)).

(** ** Auth handlers *)

Definition handleRegister (username email password : string) (s : State)
  : State :=
  await (PostRegister username email password) AwRegister
    (setLoading (const true) s).

Definition handleRegister_then (now : Z) (o : Outcome unit) (s : State)
  : State :=
  setLoading (const false)
    match o with
    | Fulfilled _ => showToast now "Registration successful! Please login." s
    | Rejected message =>
        showToast now (errorMsg message "Registration failed") s
    end.

Definition handleLogin (email password : string) (s : State) : State :=
  await (PostLogin email password) AwLogin (setLoading (const true) s).

Definition handleLogin_then (now : Z) (o : Outcome LoginBody)
  (s : State) : State :=
  setLoading (const false)
    match o with
    | Fulfilled body =>
        showToast now ("Welcome back, " ++ IUser.username (user body) ++ "!")
          (setCurrentUser (const (Some (user body)))
             (with_localStorage
                (const (mkStorage (Some (token body))
                          (Some (Some (user body))))) s))
    | Rejected message => showToast now (errorMsg message "Login failed") s
    end.

(** [socket.disconnect()] on the socket object with handle [h]. *)
Definition disconnect (h : nat) : State → State :=
  with_sockets
    (alter (λ k, mkSocket false false (sock_onNotification k)) h).

Definition handleLogout (now : Z) (s : State) : State :=
  let s := with_localStorage (const (mkStorage None None)) s in
  let s := setCurrentUser (const None) s in
  let s := setTasks (const []) s in
  let s := setNotifications (const []) s in
  let s := setLogsByTask (const ∅) s in
  let s := match socketRef s with
           | Some h => disconnect h s
           | None => s
           end in
  let s := with_socketRef (const None) s in
  showToast now "Logged out successfully" s.

(** ** Task handlers *)

(** [submitTask]; [editing] is the task the form was opened on, or nothing
    when it was opened to create one. *)
Definition submitTask (editing : option ITask.t) (form : TaskForm.t)
  (s : State) : State :=
  let payload :=
    TaskPayload.mk (TaskForm.title form) (TaskForm.description form)
      (TaskForm.priority form) (TaskForm.status form)
      (jsOr (Some (TaskForm.dueDate form)) None)
      (jsOr (Some (TaskForm.assignedTo form)) None) in
  await
    match editing with
    | Some t => PutTask (getTaskId t) payload
    | None => PostTask payload
    end
    (AwSubmitTask editing) (setLoading (const true) s).

(** The response carries the stored task ([res.data.task || res.data]). *)
Definition submitTask_then (editing : option ITask.t) (now : Z)
  (o : Outcome ITask.t) (s : State) : State :=
  setLoading (const false)
    match o, editing with
    | Fulfilled updatedTask, Some t =>
        showToast now "Task updated successfully!"
          (setTasks
             (λ prev,
                map (λ x, if decide (getTaskId x = getTaskId t)
                          then updatedTask else x) prev) s)
    | Fulfilled newTask, None =>
        showToast now "Task created successfully!"
          (setTasks (λ prev, newTask :: prev) s)
    | Rejected message, _ =>
        showToast now (errorMsg message "Failed to save task") s
    end.

(** [deleteTask]; [confirmed] is the user's answer to the [confirm]
    dialog. *)
Definition deleteTask (task : ITask.t) (confirmed : bool) (s : State)
  : State :=
  if confirmed
  then await (DeleteTask (getTaskId task)) (AwDeleteTask (getTaskId task))
         (setLoading (const true) s)
  else s.

Definition deleteTask_then (taskId : string) (now : Z) (o : Outcome unit)
  (s : State) : State :=
  setLoading (const false)
    match o with
    | Fulfilled _ =>
        showToast now "Task deleted successfully!"
          (setLogsByTask (λ prev, delete taskId prev)
             (setTasks (λ prev, filter (λ x, getTaskId x ≠ taskId) prev) s))
    | Rejected message =>
        showToast now (errorMsg message "Failed to delete task") s
    end.

(** ** Unread count and read handlers *)

(** [useMemo(factory, [deps])]: the cached value is reused while the
    dependency is the same.  React compares the dependency by identity and
    the model by value; a value computed again from an equal list is the same
    value, so the two agree on what is returned. *)
Definition useMemo {D V : Type} `{EqDecision D} (cache : option (D * V))
  (factory : unit → V) (deps : D) : D * V :=
  match cache with
  | Some (d, v) => if decide (d = deps) then (d, v) else (deps, factory ())
  | None => (deps, factory ())
  end.

(** The [useMemo] call that defines [unreadCount], in a render of [s]. *)
Definition unreadCount_memo (s : State) : list INotification.t * nat :=
  useMemo (unreadMemo s)
    (λ _, length (filter (λ n, negb (INotification.isRead n))
                    (notifications s)))
    (notifications s).

(** [unreadCount], the number the badge and the panel show. *)
Definition unreadCount (s : State) : nat := snd (unreadCount_memo s).

(** One render of the component, as far as it leaves a trace in the state:
    the memo cache. *)
Definition render (s : State) : State :=
  with_unreadMemo (const (Some (unreadCount_memo s))) s.

Definition markNotificationRead (env : Closure) (notificationId : string)
  (s : State) : State :=
  match c_currentUser env with
  | None => s
  | Some u =>
      await (PatchRead (getUserId u) notificationId)
        (AwMarkNotificationRead notificationId) s
  end.

(** A fulfilled call with no [response.data] makes [response.data.success]
    throw, which lands in the [catch] like a rejection. *)
Definition markNotificationRead_then (notificationId : string)
  (o : Outcome (option PatchBody)) (s : State) : State :=
  match o with
  | Fulfilled (Some body) =>
      if success body
      then setNotifications
             (λ prev,
                map (λ n, if decide (INotification.key n = Some notificationId)
                          then INotification.withRead n else n) prev) s
      else s
  | Fulfilled None | Rejected _ =>
      consoleError "Error marking notification as read:" s
  end.

Definition markAllReadLocal (env : Closure) (now : Z) (s : State) : State :=
  match c_currentUser env with
  | None => s
  | Some u =>
      let unreadNotifs :=
        filter (λ n, negb (INotification.isRead n)) (c_notifications env) in
      if decide (length unreadNotifs = 0)
      then showToast now "No unread notifications to mark" s
      else await (PatchMarkRead (getUserId u)) AwMarkAllRead s
  end.

Definition markAllReadLocal_then (now : Z) (o : Outcome (option PatchBody))
  (s : State) : State :=
  match o with
  | Fulfilled (Some body) =>
      if success body
      then showToast now (modifiedCount body ++ " notifications marked as read")
             (setNotifications
                (λ prev,
                   map (λ n, if INotification.isRead n then n
                             else INotification.withRead n) prev) s)
      else s
  | Fulfilled None | Rejected _ =>
      showToast now "Failed to mark notifications as read"
        (consoleError "Error marking notifications as read:" s)
  end.

(** ** Effects *)

(** Cleanup of the socket effect: [socket.off("notification", ...)] on the
    socket its last run used. *)
Definition socketEffect_cleanup (s : State) : State :=
  match effectSocket s with
  | Some h =>
      with_effectSocket (const None)
        (with_sockets
           (alter (λ k, mkSocket (sock_connected k) (sock_active k) None) h)
           s)
  | None => s
  end.

(** The socket effect (dependency [currentUser]): create the socket when
    [socketRef] holds none, and attach the listener of this render. *)
Definition socketEffect (s : State) : State :=
  match currentUser s with
  | None => s
  | Some _ =>
      let env := closure_of s in
      let s := match socketRef s with
               | Some _ => s
               | None =>
                   with_socketRef (const (Some (length (sockets s))))
                     (with_sockets (λ l, l ++ [mkSocket false true None]) s)
               end in
      match socketRef s with
      | Some h =>
          with_effectSocket (const (Some h))
            (with_sockets
               (alter (λ k, mkSocket (sock_connected k) (sock_active k)
                              (Some env)) h) s)
      | None => s
      end
  end.

(** The bootstrap effect (dependencies [currentUser] and [scope]). *)
Definition bootstrapEffect (s : State) : State :=
  match currentUser s with
  | None => s
  | Some _ =>
      let env := closure_of s in
      fetchNotifications env (fetchTasks env (fetchUsers s))
  end.

(** The filter effect (dependencies [filterStatus], [filterPriority] and
    [searchTerm]). *)
Definition filterEffect (s : State) : State :=
  match currentUser s with
  | None => s
  | Some _ => fetchTasks (closure_of s) s
  end.

(** What runs after a render in which [currentUser] changed. *)
Definition afterUserChange (s : State) : State :=
  bootstrapEffect (socketEffect (socketEffect_cleanup s)).

(** ** Events *)

Inductive Event :=
| SubmitRegister (username email password : string)
| SubmitLogin (email password : string)
| SubmitTask (editing : option ITask.t) (form : TaskForm.t)
| Deliver (k : nat) (r : Response) (now : Z)
| SocketConnect (h : nat)
| SocketDrop (h : nat)
| Push (h : nat) (notif : INotification.t) (now : Z)
| ClickLogout (now : Z)
| ClickDelete (i : nat) (confirmed : bool)
| ClickLogs (i : nat)
| ClickRefresh
| ClickMarkAllRead (now : Z)
| ClickNotification (i : nat)
| CloseToast (id : string)
| ChangeScope (v : Scope)
| ChangeFilterStatus (v : string)
| ChangeFilterPriority (v : string)
| ChangeSearchTerm (v : string).

(** The continuation [aw] resumed with the response [r]; [None] when [r]
    is not a response to the call [aw] waits for. *)
Definition resume (aw : Await) (r : Response) (now : Z) (s : State)
  : option State :=
  match aw, r with
  | AwRegister, ResRegister o => Some (handleRegister_then now o s)
  | AwSubmitTask editing, ResTask o => Some (submitTask_then editing now o s)
  | AwLogin, ResLogin o =>
      Some match o with
           | Fulfilled _ => afterUserChange (handleLogin_then now o s)
           | Rejected _ => handleLogin_then now o s
           end
  | AwFetchUsers, ResUsers o => Some (fetchUsers_then now o s)
  | AwFetchTasks, ResTasks o => Some (fetchTasks_then now o s)
  | AwFetchNotifications, ResNotifications o =>
      Some (fetchNotifications_then o s)
  | AwFetchLogs taskId, ResLogs o => Some (fetchLogs_then taskId now o s)
  | AwDeleteTask taskId, ResDelete o => Some (deleteTask_then taskId now o s)
  | AwMarkNotificationRead nid, ResPatch o =>
      Some (markNotificationRead_then nid o s)
  | AwMarkAllRead, ResPatch o => Some (markAllReadLocal_then now o s)
  | _, _ => None
  end.

(** The response to call number [k] arrives. *)
Definition deliver (k : nat) (r : Response) (now : Z) (s : State) : State :=
  match awaiting s !! k with
  | Some aw => default s (resume aw r now (with_awaiting (delete k) s))
  | None => s
  end.

(** The transport of socket [h] comes up, or is lost. *)
Definition socketConnect (h : nat) : State → State :=
  with_sockets
    (alter (λ k, mkSocket (sock_active k) (sock_active k)
                   (sock_onNotification k)) h).

Definition socketDrop (h : nat) : State → State :=
  with_sockets
    (alter (λ k, mkSocket false (sock_active k) (sock_onNotification k)) h).

(** The server emits ["notification"] on socket [h]. *)
Definition push (h : nat) (notif : INotification.t) (now : Z) (s : State)
  : State :=
  match sockets s !! h with
  | Some k =>
      match sock_connected k, sock_onNotification k with
      | true, Some env => onNotification env now notif s
      | _, _ => s
      end
  | None => s
  end.

(** The click on the [i]-th notification of the panel:
    [!n.isRead && markNotificationRead(n._id || n.id || "")]. *)
Definition clickNotification (i : nat) (s : State) : State :=
  match notifications s !! i with
  | Some n =>
      if INotification.isRead n then s
      else markNotificationRead (closure_of s)
             (default "" (jsOr (INotification.key n) (Some ""))) s
  | None => s
  end.

(** The handler an event runs, with the effects its state change triggers.
    The dashboard's controls exist only while a user is logged in, the login
    form only while none is. *)
Definition handle (e : Event) (s : State) : State :=
  match e, currentUser s with
  | SubmitRegister username email password, None =>
      handleRegister username email password s
  | SubmitLogin email password, None => handleLogin email password s
  | SubmitTask editing form, Some _ => submitTask editing form s
  | Deliver k r now, _ => deliver k r now s
  | SocketConnect h, _ => socketConnect h s
  | SocketDrop h, _ => socketDrop h s
  | Push h notif now, _ => push h notif now s
  | CloseToast id, _ => removeToast id s
  | ClickLogout now, Some _ => afterUserChange (handleLogout now s)
  | ClickDelete i confirmed, Some _ =>
      match tasks s !! i with
      | Some task => deleteTask task confirmed s
      | None => s
      end
  | ClickLogs i, Some _ =>
      match tasks s !! i with
      | Some task => fetchLogs (getTaskId task) s
      | None => s
      end
  | ClickRefresh, Some _ => fetchNotifications (closure_of s) s
  | ClickMarkAllRead now, Some _ => markAllReadLocal (closure_of s) now s
  | ClickNotification i, Some _ => clickNotification i s
  | ChangeScope v, Some _ =>
      if decide (v = scope s) then s
      else bootstrapEffect (setScope (const v) s)
  | ChangeFilterStatus v, Some _ =>
      if decide (v = filterStatus s) then s
      else filterEffect (setFilterStatus (const v) s)
  | ChangeFilterPriority v, Some _ =>
      if decide (v = filterPriority s) then s
      else filterEffect (setFilterPriority (const v) s)
  | ChangeSearchTerm v, Some _ =>
      if decide (v = searchTerm s) then s
      else filterEffect (setSearchTerm (const v) s)
  | _, None => s
  | SubmitRegister _ _ _, Some _ | SubmitLogin _ _, Some _ => s
  end.

Definition step (s : State) (e : Event) : State := render (handle e s).

Definition run (s : State) (es : list Event) : State := foldl step s es.

(** The component at its first render, over a given [localStorage]. *)
Definition init (ls : LocalStorage) : State :=
  mkState None [] [] ∅ [] [] "" "all" "all" ScopeAll false None None None
    [] ls [] ∅ [].

(** The first render and the mount effect that restores the stored user. *)
Definition mount (ls : LocalStorage) : State :=
  render
    match ls_currentUser ls with
    | Some (Some u) =>
        afterUserChange (setCurrentUser (const (Some u)) (init ls))
    | Some None =>
        with_localStorage (const (mkStorage (ls_token ls) None))
          (consoleError "Failed to parse current user:" (init ls))
    | None => init ls
    end.

(** ** Notions the properties are stated with *)

(** The update [markNotificationRead] maps over the collection. *)
Definition readOne (notificationId : string) (n : INotification.t)
  : INotification.t :=
  if decide (INotification.key n = Some notificationId)
  then INotification.withRead n else n.

(** The update [markAllReadLocal] maps over the collection. *)
Definition readAll (n : INotification.t) : INotification.t :=
  if INotification.isRead n then n else INotification.withRead n.

(** The number of entries whose [isRead] is false, counted entry by
    entry. *)
Fixpoint count_unread (l : list INotification.t) : nat :=
  match l with
  | [] => 0
  | n :: l => if INotification.isRead n then count_unread l
              else S (count_unread l)
  end.

(** At most one entry per notification id. *)
Definition uniqueIds (l : list INotification.t) : Prop :=
  NoDup (map INotification.key l).

(** The HTTP calls issued by going from [s] to [s']. *)
Definition issued (s s' : State) : list Request :=
  drop (length (requests s)) (requests s').

(** Whether the socket object [h] is still connected or driven by the
    client. *)
Definition socketUp (h : nat) (s : State) : bool :=
  match sockets s !! h with
  | Some k => sock_connected k || sock_active k
  | None => false
  end.

(** An event is clean in [s] when it brings no second entry for an id: a
    pushed notification has an id the collection does not hold yet, and a
    fetched notification list holds every id once. *)
Definition clean (s : State) (e : Event) : Prop :=
  match e with
  | Push _ notif _ =>
      INotification.key notif ∉ map INotification.key (notifications s)
  | Deliver _ (ResNotifications (Fulfilled body)) _ => uniqueIds (listOf body)
  | _ => True
  end.

Fixpoint all_clean (s : State) (es : list Event) : Prop :=
  match es with
  | [] => True
  | e :: es => clean s e ∧ all_clean (step s e) es
  end.

(** Two states with the same socket objects and the same handles on
    them. *)
Definition same_sockets (s s' : State) : Prop :=
  sockets s' = sockets s ∧ socketRef s' = socketRef s
  ∧ effectSocket s' = effectSocket s.

(** A socket object that is disconnected for good and has no listener. *)
Definition bare : SocketObj := mkSocket false false None.

(** Every socket object that [socketRef] does not hold is down, and has no
    listener unless the pending cleanup of the socket effect still names
    it. *)
Definition sockets_weak (s : State) : Prop :=
  ∀ h k, sockets s !! h = Some k → socketRef s ≠ Some h →
    sock_connected k = false ∧ sock_active k = false
    ∧ (effectSocket s ≠ Some h → sock_onNotification k = None).

(** Between two events the socket effect has run on the socket that
    [socketRef] holds, and every other socket object is bare. *)
Definition sockets_inv (s : State) : Prop :=
  effectSocket s = socketRef s ∧ sockets_weak s.

(** The memo cache is sound when the value it holds is the count over the
    list it holds. *)
Definition memo_ok (s : State) : Prop :=
  match unreadMemo s with
  | Some (d, v) =>
      v = length (filter (λ n, negb (INotification.isRead n)) d)
  | None => True
  end.

(** What handling the event [e] in [s] can make of the notification
    collection. *)
Inductive NotifChange (s : State) (e : Event)
  : list INotification.t → Prop :=
| change_none : NotifChange s e (notifications s)
| change_push h notif now :
    e = Push h notif now → NotifChange s e (notif :: notifications s)
| change_snapshot k body now :
    e = Deliver k (ResNotifications (Fulfilled body)) now →
    NotifChange s e (listOf body)
| change_readOne nid :
    NotifChange s e (map (readOne nid) (notifications s))
| change_readAll : NotifChange s e (map readAll (notifications s))
| change_reset : NotifChange s e [].

(** ** Sample data *)

Definition alice : IUser.t := IUser.mk "u1" None "alice" "alice@example.org".

Definition n1 : INotification.t :=
  INotification.mk "n1" None "u1" "Task assigned to you" false (Some "t1")
    "2024-05-01T10:00:00Z" "2024-05-01T10:00:00Z".

Definition n2 : INotification.t :=
  INotification.mk "n2" None "u1" "Task completed" false (Some "t2")
    "2024-05-01T11:00:00Z" "2024-05-01T11:00:00Z".

Definition taskA : ITask.t :=
  ITask.mk "t1" None "Write report" "" High Pending None None alice
    "2024-05-01T09:00:00Z" "2024-05-01T09:00:00Z".

Definition taskB : ITask.t :=
  ITask.mk "t2" None "Book room" "" Low Completed None (Some alice) alice
    "2024-05-01T09:30:00Z" "2024-05-01T09:30:00Z".

Definition logA : ILog.t :=
  ILog.mk "l1" None "created" None (Some ("alice", "alice@example.org")) None
    "2024-05-01T09:00:00Z" (Some "t1") None.

Definition patched (count : string) : Response :=
  ResPatch (Fulfilled (Some (mkPatchBody true count))).

(** Alice logs in on a fresh browser: call 0 is the login, calls 1, 2 and 3
    are the bootstrap fetches, and socket 0 connects. *)
Definition login_alice : list Event :=
  [SubmitLogin "alice@example.org" "secret";
   Deliver 0 (ResLogin (Fulfilled (mkLoginBody "tok" alice))) 1000;
   SocketConnect 0].

Definition logged_in : State := run (mount (mkStorage None None)) login_alice.

(** The bootstrap fetches have answered: two tasks, one unread
    notification. *)
Definition loaded : State :=
  run logged_in
    [Deliver 1 (ResUsers (Fulfilled (BodyArray [alice]))) 1100;
     Deliver 2 (ResTasks (Fulfilled (BodyArray [taskA; taskB]))) 1101;
     Deliver 3 (ResNotifications (Fulfilled (BodyArray [n1]))) 1102].

(** * Further handlers and notions *)

(** ** The task form *)


(** ** Notions of the further properties *)

Definition isRejected (r : Response) : bool :=
  match r with
  | ResRegister (Rejected _) | ResLogin (Rejected _) | ResTask (Rejected _)
  | ResUsers (Rejected _) | ResTasks (Rejected _)
  | ResNotifications (Rejected _) | ResLogs (Rejected _)
  | ResDelete (Rejected _) | ResPatch (Rejected _) => true
  | _ => false
  end.

(** The handlers whose [catch] only logs. *)
Definition silent (aw : Await) : bool :=
  match aw with
  | AwFetchNotifications | AwMarkNotificationRead _ => true
  | _ => false
  end.

(** The handlers whose [catch] writes to the console. *)
Definition logsFailure (aw : Await) : bool :=
  match aw with
  | AwFetchUsers | AwFetchTasks | AwFetchNotifications | AwFetchLogs _
  | AwMarkNotificationRead _ | AwMarkAllRead => true
  | _ => false
  end.

(** The handlers that set [loading] before their call and clear it in
    [finally]. *)
Definition setsLoading (aw : Await) : bool :=
  match aw with
  | AwRegister | AwLogin | AwSubmitTask _ | AwFetchUsers | AwFetchTasks
  | AwDeleteTask _ => true
  | _ => false
  end.

(** The clock reading an event carries, when its handler can show a
    toast. *)
Definition eventTime (e : Event) : option Z :=
  match e with
  | Deliver _ _ now | Push _ _ now | ClickLogout now | ClickMarkAllRead now =>
      Some now
  | _ => None
  end.

(** The clock readings of the events grow strictly, from [last] on. *)
Fixpoint increasing (last : Z) (es : list Event) : Prop :=
  match es with
  | [] => True
  | e :: es =>
      match eventTime e with
      | Some now => (last < now)%Z ∧ increasing now es
      | None => increasing last es
      end
  end.

(** What handling the event [e] in [s] can make of the toast queue. *)
Inductive ToastChange (s : State) (e : Event) : list ToastItem.t → Prop :=
| toasts_same : ToastChange s e (toasts s)
| toasts_pushed now message :
    eventTime e = Some now →
    ToastChange s e (toasts s ++ [ToastItem.mk (toString now) message])
| toasts_removed id :
    ToastChange s e (filter (λ toast, ToastItem.id toast ≠ id) (toasts s)).

(** Two states with the same user and the same sockets. *)
Definition same_session (s s' : State) : Prop :=
  same_sockets s s' ∧ currentUser s' = currentUser s.

(** The page holds a socket exactly while a user is logged in, and that
    socket is driven by the client and carries the listener created for
    that user. *)
Definition session_inv (s : State) : Prop :=
  (currentUser s = None ↔ socketRef s = None)
  ∧ ∀ h, socketRef s = Some h →
      ∃ k env, sockets s !! h = Some k ∧ sock_active k = true
        ∧ sock_onNotification k = Some env
        ∧ c_currentUser env = currentUser s.

(** Every awaited call has been issued, and [loading] is set only while a
    call that will clear it is awaited. *)
Definition loading_inv (s : State) : Prop :=
  (∀ k, is_Some (awaiting s !! k) → k < length (requests s))
  ∧ (loading s = true →
     ∃ k aw, awaiting s !! k = Some aw ∧ setsLoading aw = true).

(** The events that change a filter cell. *)
Definition changesFilter (e : Event) : bool :=
  match e with
  | ChangeScope _ | ChangeFilterStatus _ | ChangeFilterPriority _
  | ChangeSearchTerm _ => true
  | _ => false
  end.

(** The ids in the queue are readings of the clock up to [last], each at
    most once. *)
Definition toasts_upto (last : Z) (l : list ToastItem.t) : Prop :=
  Forall (λ toast, ∃ t, ToastItem.id toast = toString t ∧ (t ≤ last)%Z) l
  ∧ NoDup (map ToastItem.id l).

(** ** Further sample data *)

Definition taskC : ITask.t :=
  ITask.mk "t3" None "Plan trip" "" Low Pending None None alice
    "2024-05-02T08:00:00Z" "2024-05-02T08:00:00Z".

(** Alice has submitted the form for a new task: call 4 is awaited. *)
Definition drafting : State :=
  step loaded (SubmitTask None (TaskForm.mk "Plan trip" "" Low Pending "" "")).

(** Alice has asked for the log of the first task and confirmed its
    deletion: calls 4 and 5 are awaited. *)
Definition log_and_delete : State :=
  run loaded [ClickLogs 0; ClickDelete 0 true].

(** Alice has chosen the status filter Pending: call 4 is awaited. *)
Definition filtering : State := step loaded (ChangeFilterStatus "Pending").

(** Alice has submitted the login form on a fresh browser: call 0 is
    awaited. *)
Definition logging_in : State :=
  step (mount (mkStorage None None))
    (SubmitLogin "alice@example.org" "secret").

(** Both bootstrap fetches of [logged_in] failed, one millisecond apart. *)
Definition two_failures : State :=
  run logged_in [Deliver 1 (ResUsers (Rejected None)) 5000;
                 Deliver 2 (ResTasks (Rejected None)) 5001].

(** The closure of the listener attached when Alice logged in: the default
    filters and no notifications yet. *)
Definition login_closure : Closure :=
  mkClosure (Some alice) ScopeAll "all" "all" "" [].

(** * Properties *)

(** ** Lists *)

Lemma filter_keeps_all {A : Type} (P : A → Prop) `{∀ x, Decision (P x)}
  (l : list A) :
  Forall P l → filter P l = l.
Proof.
  induction 1 as [|x l Hx _ IH]; [done|].
  by rewrite filter_cons_True, IH.
Qed.

(** ** What the handlers leave alone *)

(** Every handler is a chain of setter calls, and none is a call of
    [with_unreadMemo]: the cache is written by [render] only.  Most handlers
    do not call [setNotifications] either. *)

Create Rewrite HintDb page.

Ltac frame :=
  repeat first
    [ reflexivity
    | progress autorewrite with page
    | case_match
    | case_decide
    | progress simpl ].

Lemma unreadMemo_handleRegister_then now o s :
  unreadMemo (handleRegister_then now o s) = unreadMemo s.
Proof. unfold handleRegister_then. frame. Qed.
Lemma notifications_handleRegister_then now o s :
  notifications (handleRegister_then now o s) = notifications s.
Proof. unfold handleRegister_then. frame. Qed.
#[global] Hint Rewrite unreadMemo_handleRegister_then
  notifications_handleRegister_then : page.

Lemma unreadMemo_submitTask_then editing now o s :
  unreadMemo (submitTask_then editing now o s) = unreadMemo s.
Proof. unfold submitTask_then. frame. Qed.
Lemma notifications_submitTask_then editing now o s :
  notifications (submitTask_then editing now o s) = notifications s.
Proof. unfold submitTask_then. frame. Qed.
#[global] Hint Rewrite unreadMemo_submitTask_then
  notifications_submitTask_then : page.

Lemma unreadMemo_fetchTasks env s :
  unreadMemo (fetchTasks env s) = unreadMemo s.
Proof. unfold fetchTasks. frame. Qed.
Lemma notifications_fetchTasks env s :
  notifications (fetchTasks env s) = notifications s.
Proof. unfold fetchTasks. frame. Qed.
#[global] Hint Rewrite unreadMemo_fetchTasks notifications_fetchTasks : page.

Lemma unreadMemo_fetchNotifications env s :
  unreadMemo (fetchNotifications env s) = unreadMemo s.
Proof. unfold fetchNotifications. frame. Qed.
Lemma notifications_fetchNotifications env s :
  notifications (fetchNotifications env s) = notifications s.
Proof. unfold fetchNotifications. frame. Qed.
#[global] Hint Rewrite unreadMemo_fetchNotifications
  notifications_fetchNotifications : page.

Lemma unreadMemo_fetchUsers_then now o s :
  unreadMemo (fetchUsers_then now o s) = unreadMemo s.
Proof. unfold fetchUsers_then. frame. Qed.
Lemma notifications_fetchUsers_then now o s :
  notifications (fetchUsers_then now o s) = notifications s.
Proof. unfold fetchUsers_then. frame. Qed.
#[global] Hint Rewrite unreadMemo_fetchUsers_then
  notifications_fetchUsers_then : page.

Lemma unreadMemo_fetchTasks_then now o s :
  unreadMemo (fetchTasks_then now o s) = unreadMemo s.
Proof. unfold fetchTasks_then. frame. Qed.
Lemma notifications_fetchTasks_then now o s :
  notifications (fetchTasks_then now o s) = notifications s.
Proof. unfold fetchTasks_then. frame. Qed.
#[global] Hint Rewrite unreadMemo_fetchTasks_then
  notifications_fetchTasks_then : page.

Lemma unreadMemo_fetchLogs_then taskId now o s :
  unreadMemo (fetchLogs_then taskId now o s) = unreadMemo s.
Proof. unfold fetchLogs_then. frame. Qed.
Lemma notifications_fetchLogs_then taskId now o s :
  notifications (fetchLogs_then taskId now o s) = notifications s.
Proof. unfold fetchLogs_then. frame. Qed.
#[global] Hint Rewrite unreadMemo_fetchLogs_then
  notifications_fetchLogs_then : page.

Lemma unreadMemo_deleteTask task confirmed s :
  unreadMemo (deleteTask task confirmed s) = unreadMemo s.
Proof. unfold deleteTask. frame. Qed.
Lemma notifications_deleteTask task confirmed s :
  notifications (deleteTask task confirmed s) = notifications s.
Proof. unfold deleteTask. frame. Qed.
#[global] Hint Rewrite unreadMemo_deleteTask notifications_deleteTask : page.

Lemma unreadMemo_deleteTask_then taskId now o s :
  unreadMemo (deleteTask_then taskId now o s) = unreadMemo s.
Proof. unfold deleteTask_then. frame. Qed.
Lemma notifications_deleteTask_then taskId now o s :
  notifications (deleteTask_then taskId now o s) = notifications s.
Proof. unfold deleteTask_then. frame. Qed.
#[global] Hint Rewrite unreadMemo_deleteTask_then
  notifications_deleteTask_then : page.

Lemma unreadMemo_handleLogin_then now o s :
  unreadMemo (handleLogin_then now o s) = unreadMemo s.
Proof. unfold handleLogin_then. frame. Qed.
Lemma notifications_handleLogin_then now o s :
  notifications (handleLogin_then now o s) = notifications s.
Proof. unfold handleLogin_then. frame. Qed.
#[global] Hint Rewrite unreadMemo_handleLogin_then
  notifications_handleLogin_then : page.

Lemma unreadMemo_markNotificationRead env nid s :
  unreadMemo (markNotificationRead env nid s) = unreadMemo s.
Proof. unfold markNotificationRead. frame. Qed.
Lemma notifications_markNotificationRead env nid s :
  notifications (markNotificationRead env nid s) = notifications s.
Proof. unfold markNotificationRead. frame. Qed.
#[global] Hint Rewrite unreadMemo_markNotificationRead
  notifications_markNotificationRead : page.

Lemma unreadMemo_markAllReadLocal env now s :
  unreadMemo (markAllReadLocal env now s) = unreadMemo s.
Proof. unfold markAllReadLocal. frame. Qed.
Lemma notifications_markAllReadLocal env now s :
  notifications (markAllReadLocal env now s) = notifications s.
Proof. unfold markAllReadLocal. frame. Qed.
#[global] Hint Rewrite unreadMemo_markAllReadLocal
  notifications_markAllReadLocal : page.

Lemma unreadMemo_socketEffect_cleanup s :
  unreadMemo (socketEffect_cleanup s) = unreadMemo s.
Proof. unfold socketEffect_cleanup. frame. Qed.
Lemma notifications_socketEffect_cleanup s :
  notifications (socketEffect_cleanup s) = notifications s.
Proof. unfold socketEffect_cleanup. frame. Qed.
#[global] Hint Rewrite unreadMemo_socketEffect_cleanup
  notifications_socketEffect_cleanup : page.

Lemma unreadMemo_socketEffect s :
  unreadMemo (socketEffect s) = unreadMemo s.
Proof. unfold socketEffect. frame. Qed.
Lemma notifications_socketEffect s :
  notifications (socketEffect s) = notifications s.
Proof. unfold socketEffect. frame. Qed.
#[global] Hint Rewrite unreadMemo_socketEffect
  notifications_socketEffect : page.

Lemma unreadMemo_bootstrapEffect s :
  unreadMemo (bootstrapEffect s) = unreadMemo s.
Proof. unfold bootstrapEffect. frame. Qed.
Lemma notifications_bootstrapEffect s :
  notifications (bootstrapEffect s) = notifications s.
Proof. unfold bootstrapEffect. frame. Qed.
#[global] Hint Rewrite unreadMemo_bootstrapEffect
  notifications_bootstrapEffect : page.

Lemma unreadMemo_filterEffect s :
  unreadMemo (filterEffect s) = unreadMemo s.
Proof. unfold filterEffect. frame. Qed.
Lemma notifications_filterEffect s :
  notifications (filterEffect s) = notifications s.
Proof. unfold filterEffect. frame. Qed.
#[global] Hint Rewrite unreadMemo_filterEffect
  notifications_filterEffect : page.

Lemma unreadMemo_afterUserChange s :
  unreadMemo (afterUserChange s) = unreadMemo s.
Proof. unfold afterUserChange. frame. Qed.
Lemma notifications_afterUserChange s :
  notifications (afterUserChange s) = notifications s.
Proof. unfold afterUserChange. frame. Qed.
#[global] Hint Rewrite unreadMemo_afterUserChange
  notifications_afterUserChange : page.

Lemma unreadMemo_fetchNotifications_then o s :
  unreadMemo (fetchNotifications_then o s) = unreadMemo s.
Proof. unfold fetchNotifications_then. frame. Qed.
#[global] Hint Rewrite unreadMemo_fetchNotifications_then : page.

Lemma unreadMemo_markNotificationRead_then nid o s :
  unreadMemo (markNotificationRead_then nid o s) = unreadMemo s.
Proof. unfold markNotificationRead_then. frame. Qed.
#[global] Hint Rewrite unreadMemo_markNotificationRead_then : page.

Lemma unreadMemo_markAllReadLocal_then now o s :
  unreadMemo (markAllReadLocal_then now o s) = unreadMemo s.
Proof. unfold markAllReadLocal_then. frame. Qed.
#[global] Hint Rewrite unreadMemo_markAllReadLocal_then : page.

Lemma unreadMemo_onNotification env now notif s :
  unreadMemo (onNotification env now notif s) = unreadMemo s.
Proof. unfold onNotification. frame. Qed.
#[global] Hint Rewrite unreadMemo_onNotification : page.

Lemma unreadMemo_handleLogout now s :
  unreadMemo (handleLogout now s) = unreadMemo s.
Proof. unfold handleLogout. frame. Qed.
#[global] Hint Rewrite unreadMemo_handleLogout : page.

Lemma unreadMemo_push h notif now s :
  unreadMemo (push h notif now s) = unreadMemo s.
Proof. unfold push. frame. Qed.
#[global] Hint Rewrite unreadMemo_push : page.

Lemma unreadMemo_clickNotification i s :
  unreadMemo (clickNotification i s) = unreadMemo s.
Proof. unfold clickNotification. frame. Qed.
Lemma notifications_clickNotification i s :
  notifications (clickNotification i s) = notifications s.
Proof. unfold clickNotification. frame. Qed.
#[global] Hint Rewrite unreadMemo_clickNotification
  notifications_clickNotification : page.

(** ** Toast queue *)

Section Toasts.
Implicit Types (s : State) (t : ToastItem.t).

Lemma toasts_showToast now message s :
  toasts (showToast now message s)
  = toasts s ++ [ToastItem.mk (toString now) message].
Proof. reflexivity. Qed.

Lemma toasts_removeToast id s :
  toasts (removeToast id s)
  = filter (λ toast, ToastItem.id toast ≠ id) (toasts s).
Proof. reflexivity. Qed.

(** Toasts pushed at different clock readings get different ids. *)
Lemma showToast_ids_differ now now' :
  now ≠ now' → toString now ≠ toString now'.
Proof. intros Hne Heq. apply Hne. by apply (inj pretty). Qed.

(** Dismissing by id keeps every toast that has another id, and keeps them
    in order. *)
Lemma removeToast_keeps_others id s t :
  t ∈ toasts s → ToastItem.id t ≠ id → t ∈ toasts (removeToast id s).
Proof.
  intros Hin Hid. rewrite toasts_removeToast. by apply list_elem_of_filter.
Qed.

Lemma removeToast_sublist id s : sublist (toasts (removeToast id s)) (toasts s).
Proof. rewrite toasts_removeToast. apply sublist_filter. Qed.

(** When the ids in the queue are pairwise different, dismissing one of
    them removes that toast and nothing else. *)
Lemma removeToast_only_that_one l1 t l2 s :
  toasts s = l1 ++ t :: l2 →
  NoDup (map ToastItem.id (toasts s)) →
  toasts (removeToast (ToastItem.id t) s) = l1 ++ l2.
Proof.
  intros Hs Hnd. rewrite toasts_removeToast, Hs. rewrite Hs in Hnd.
  rewrite map_app in Hnd. simpl in Hnd.
  apply NoDup_app in Hnd as (_ & Hl1 & Hnd).
  apply NoDup_cons in Hnd as [Hl2 _].
  rewrite filter_app, filter_cons_False by (intros H; by apply H).
  f_equal; apply filter_keeps_all; apply Forall_forall;
    intros x Hx Heq.
  - apply (Hl1 (ToastItem.id t)); [| left].
    rewrite <- Heq. apply list_elem_of_fmap. eauto.
  - apply Hl2. rewrite <- Heq. apply list_elem_of_fmap. eauto.
Qed.

End Toasts.

(** C9.  Two toasts pushed at one clock reading share their id, and
    dismissing either removes both.  Here the users fetch and the tasks
    fetch of the bootstrap fail within the same millisecond; closing the
    first failure toast also removes the second, whose message the user
    has not dismissed. *)
Theorem toasts_same_millisecond_dismissed_together :
  let s := run logged_in
             [Deliver 1 (ResUsers (Rejected None)) 5000;
              Deliver 2 (ResTasks (Rejected None)) 5000] in
  toasts s
  = [ToastItem.mk "1000" "Welcome back, alice!";
     ToastItem.mk "5000" "Failed to fetch users";
     ToastItem.mk "5000" "Failed to fetch tasks"]
  ∧ toasts (step s (CloseToast "5000"))
    = [ToastItem.mk "1000" "Welcome back, alice!"].
Proof. split; vm_compute; reflexivity. Qed.

(** ** Deleting a task *)


(** The same through the page: the click, then the response. *)
Lemma deleteTask_sample :
  let s := run loaded [ClickLogs 0;
                       Deliver 4 (ResLogs (Fulfilled (BodyArray [logA]))) 1200;
                       ClickLogs 1;
                       Deliver 5 (ResLogs (Fulfilled (BodyArray []))) 1201] in
  let s' := run s [ClickDelete 0 true;
                   Deliver 6 (ResDelete (Fulfilled ())) 1300] in
  tasks s = [taskA; taskB] ∧ tasks s' = [taskB]
  ∧ logsByTask s !! "t1" = Some [logA] ∧ logsByTask s' !! "t1" = None
  ∧ logsByTask s' !! "t2" = Some [].
Proof. vm_compute. done. Qed.

(** ** Logout *)

(** C5.  Whatever the state before, [handleLogout] leaves the task
    collection, the notification collection and the log cache empty, holds
    no socket any more, and has disconnected the socket it held. *)
Theorem handleLogout_full_reset now s :
  let s' := handleLogout now s in
  tasks s' = []
  ∧ notifications s' = []
  ∧ logsByTask s' = ∅
  ∧ socketRef s' = None
  ∧ from_option (λ h, socketUp h s') false (socketRef s) = false.
Proof.
  unfold handleLogout; simpl.
  destruct (socketRef s) as [h|]; simpl; [|done].
  split_and!; try reflexivity.
  unfold socketUp, disconnect; simpl.
  rewrite list_lookup_alter_eq.
  by destruct (sockets s !! h).
Qed.

(** The same through the page: after the click on Logout no socket object
    is connected and none has a listener left. *)
Lemma handleLogout_sample :
  let s := run loaded [Push 0 n2 1500] in
  let s' := step s (ClickLogout 2000) in
  socketUp 0 s = true ∧ length (notifications s) = 2
  ∧ tasks s' = [] ∧ notifications s' = [] ∧ logsByTask s' = ∅
  ∧ sockets s' = [mkSocket false false None] ∧ socketRef s' = None
  ∧ currentUser s' = None ∧ localStorage s' = mkStorage None None.
Proof. vm_compute. done. Qed.

(** ** Sockets across events *)

Lemma same_sockets_deliver k r now s :
  (∀ o, r ≠ ResLogin (Fulfilled o)) → same_sockets s (deliver k r now s).
Proof.
  intros Hr. unfold deliver, same_sockets.
  destruct (awaiting s !! k) as [aw|]; [|done].
  destruct aw, r; try done; unfold resume; cbn [from_option id];
    repeat match goal with o : Outcome _ |- _ => destruct o end;
    try (by exfalso; eapply Hr);
    unfold handleRegister_then, handleLogin_then, submitTask_then,
      fetchUsers_then, fetchTasks_then, fetchNotifications_then,
      fetchLogs_then, deleteTask_then, markNotificationRead_then,
      markAllReadLocal_then;
    repeat case_match; done.
Qed.

Lemma same_sockets_weak s s' :
  same_sockets s s' → sockets_weak s → sockets_weak s'.
Proof.
  intros (Hs & Hr & He) H h k. rewrite Hs, Hr, He. apply H.
Qed.

Lemma same_sockets_inv s s' :
  same_sockets s s' → sockets_inv s → sockets_inv s'.
Proof.
  intros Hss [H1 H2]. split; [|by eapply same_sockets_weak].
  destruct Hss as (_ & -> & ->). done.
Qed.

Lemma same_sockets_bootstrapEffect s : same_sockets s (bootstrapEffect s).
Proof.
  unfold bootstrapEffect, fetchNotifications, fetchTasks, fetchUsers,
    same_sockets.
  repeat case_match; done.
Qed.

Lemma bare_of_down k :
  sock_connected k = false → sock_active k = false →
  sock_onNotification k = None → k = bare.
Proof. destruct k; simpl; by intros -> -> ->. Qed.

Lemma sockets_weak_socketEffect_cleanup s :
  sockets_weak s →
  effectSocket (socketEffect_cleanup s) = None
  ∧ socketRef (socketEffect_cleanup s) = socketRef s
  ∧ currentUser (socketEffect_cleanup s) = currentUser s
  ∧ ∀ h k, sockets (socketEffect_cleanup s) !! h = Some k →
           socketRef s ≠ Some h → k = bare.
Proof.
  intros H. unfold socketEffect_cleanup.
  destruct (effectSocket s) as [h0|] eqn:E; simpl.
  - split_and!; try done.
    intros h k Hk Hh. destruct (decide (h = h0)) as [->|Hne].
    + rewrite list_lookup_alter_eq in Hk.
      destruct (sockets s !! h0) as [k0|] eqn:Ek; [|done].
      simpl in Hk. injection Hk as <-.
      destruct (H h0 k0 Ek Hh) as (-> & -> & _). done.
    + rewrite list_lookup_alter_ne in Hk by done.
      destruct (H h k Hk Hh) as (? & ? & Hl).
      apply bare_of_down; try done. apply Hl. congruence.
  - split_and!; try done. intros h k Hk Hh.
    destruct (H h k Hk Hh) as (? & ? & Hl). apply bare_of_down; auto.
    apply Hl. congruence.
Qed.

Lemma sockets_inv_afterUserChange s :
  sockets_weak s → (currentUser s = None → socketRef s = None) →
  sockets_inv (afterUserChange s).
Proof.
  intros Hs Hnone. unfold afterUserChange.
  apply (same_sockets_inv _ _ (same_sockets_bootstrapEffect _)).
  destruct (sockets_weak_socketEffect_cleanup s Hs) as (He & Hr & Hu & Hb).
  rewrite <- Hr in Hb. rewrite <- Hu, <- Hr in Hnone.
  revert He Hnone Hb. generalize (socketEffect_cleanup s). clear.
  intros c He Hnone Hb.
  assert (∀ k, k = bare → sock_connected k = false ∧ sock_active k = false
               ∧ sock_onNotification k = None) as Hbare by by intros k ->.
  unfold socketEffect.
  destruct (currentUser c).
  2:{ split; [rewrite He, Hnone; done|]. intros h k Hk Hh.
      destruct (Hbare k (Hb h k Hk Hh)) as (? & ? & ?). done. }
  destruct (socketRef c) as [h0|] eqn:Ec; simpl; rewrite ?Ec.
  - split; [done|]. intros h k; simpl. intros Hk Hh.
    rewrite list_lookup_alter_ne in Hk by congruence.
    destruct (Hbare k (Hb h k Hk ltac:(congruence))) as (? & ? & ?). done.
  - split; [done|]. intros h k; simpl. intros Hk Hh.
    rewrite list_lookup_alter_ne in Hk by congruence.
    apply lookup_app_Some in Hk as [Hk|[Hlen Hk]].
    + destruct (Hbare k (Hb h k Hk ltac:(congruence))) as (? & ? & ?). done.
    + apply list_lookup_singleton_Some in Hk as [Hz _].
      exfalso. apply Hh. f_equal. lia.
Qed.

Lemma sockets_inv_handleLogout now s :
  sockets_inv s →
  let s' := handleLogout now s in
  sockets_weak s' ∧ socketRef s' = None ∧ currentUser s' = None.
Proof.
  intros [He Hw]. unfold handleLogout; simpl.
  destruct (socketRef s) as [h0|] eqn:Er; simpl.
  - split_and!; try done. intros h k; simpl. intros Hk _.
    destruct (decide (h = h0)) as [->|Hne].
    + rewrite list_lookup_alter_eq in Hk.
      destruct (sockets s !! h0) as [k0|]; [|done].
      simpl in Hk. injection Hk as <-. simpl. split_and!; done.
    + rewrite list_lookup_alter_ne in Hk by done.
      destruct (Hw h k Hk) as (? & ? & Hl); [congruence|].
      split_and!; try done.
  - split_and!; try done. intros h k; simpl. intros Hk _.
    destruct (Hw h k Hk) as (? & ? & Hl); [congruence|]. done.
Qed.

Lemma same_sockets_handleLogin_then now o s :
  same_sockets s (handleLogin_then now o s).
Proof. unfold handleLogin_then, same_sockets. by destruct o. Qed.

Lemma sockets_inv_deliver k r now s :
  sockets_inv s → sockets_inv (deliver k r now s).
Proof.
  intros Hs.
  assert ((∃ o, r = ResLogin (Fulfilled o))
          ∨ (∀ o, r ≠ ResLogin (Fulfilled o))) as [[o ->]|Hr].
  { destruct r as [?|[o|?]|?|?|?|?|?|?|?]; eauto; right; intros;
      discriminate. }
  - unfold deliver. destruct (awaiting s !! k) as [aw|]; [|done].
    destruct aw; try done. simpl.
    apply sockets_inv_afterUserChange; [|done].
    eapply same_sockets_weak; [apply same_sockets_handleLogin_then|].
    apply Hs.
  - eapply same_sockets_inv; [|done]. by apply same_sockets_deliver.
Qed.

Lemma sockets_inv_transport (f : SocketObj → SocketObj) h s :
  (∀ k, sock_connected k = false → sock_active k = false →
        sock_connected (f k) = false ∧ sock_active (f k) = false) →
  (∀ k, sock_onNotification (f k) = sock_onNotification k) →
  sockets_inv s → sockets_inv (with_sockets (alter f h) s).
Proof.
  intros Hf Hl [He Hw]. split; [done|]. intros h' k; simpl. intros Hk Hh.
  destruct (decide (h' = h)) as [->|Hne].
  - rewrite list_lookup_alter_eq in Hk.
    destruct (sockets s !! h) as [k0|] eqn:Ek; [|done].
    simpl in Hk. injection Hk as <-.
    destruct (Hw h k0 Ek Hh) as (Hc & Ha & Hn).
    destruct (Hf k0 Hc Ha) as [-> ->]. rewrite Hl. done.
  - rewrite list_lookup_alter_ne in Hk by done. by apply Hw.
Qed.

Lemma same_sockets_push h notif now s : same_sockets s (push h notif now s).
Proof.
  unfold push, onNotification, fetchTasks, same_sockets.
  repeat case_match; done.
Qed.

Lemma sockets_inv_handle e s : sockets_inv s → sockets_inv (handle e s).
Proof.
  intros Hs. destruct e; unfold handle; destruct (currentUser s) eqn:Eu;
    try done; try by apply sockets_inv_deliver.
  all: try solve
    [ eapply same_sockets_inv; [|exact Hs];
      first
        [ apply same_sockets_push
        | unfold same_sockets, clickNotification, filterEffect,
            bootstrapEffect, markAllReadLocal, markNotificationRead,
            fetchNotifications, fetchTasks, fetchUsers, fetchLogs,
            deleteTask, submitTask, handleLogin, handleRegister;
          repeat case_match; done ] ].
  all: try match goal with
           | |- sockets_inv (socketConnect _ _) =>
               unfold socketConnect; apply sockets_inv_transport;
               [by intros k _ ->|done|exact Hs]
           | |- sockets_inv (socketDrop _ _) =>
               unfold socketDrop; apply sockets_inv_transport;
               [by intros k _ ->|done|exact Hs]
           end.
  all: match goal with
       | H : sockets_inv ?s0
         |- sockets_inv (afterUserChange (handleLogout ?n ?s0)) =>
           destruct (sockets_inv_handleLogout n s0 H) as (Hw & Hr & Hu)
       end.
  all: apply sockets_inv_afterUserChange; done.
Qed.

Lemma sockets_inv_render s : sockets_inv s → sockets_inv (render s).
Proof. apply same_sockets_inv. by unfold same_sockets. Qed.

Lemma sockets_inv_mount ls : sockets_inv (mount ls).
Proof.
  unfold mount. apply sockets_inv_render.
  assert (∀ s, sockets s = [] → sockets_weak s) as Hnil.
  { intros s Hs h k Hk. by rewrite Hs, lookup_nil in Hk. }
  destruct (ls_currentUser ls) as [[u|]|].
  - apply sockets_inv_afterUserChange; [by apply Hnil | done].
  - split; [done | by apply Hnil].
  - split; [done | by apply Hnil].
Qed.

Lemma sockets_inv_run es s : sockets_inv s → sockets_inv (run s es).
Proof.
  revert s. induction es as [|e es IH]; intros s Hs; [done|].
  apply (IH (step s e)). unfold step.
  by apply sockets_inv_render, sockets_inv_handle.
Qed.

Lemma currentUser_socketEffect_cleanup s :
  currentUser (socketEffect_cleanup s) = currentUser s.
Proof. unfold socketEffect_cleanup. by destruct (effectSocket s). Qed.

Lemma socketRef_socketEffect_cleanup s :
  socketRef (socketEffect_cleanup s) = socketRef s.
Proof. unfold socketEffect_cleanup. by destruct (effectSocket s). Qed.

Lemma afterUserChange_logged_out s :
  currentUser s = None → afterUserChange s = socketEffect_cleanup s.
Proof.
  intros Hu. unfold afterUserChange.
  assert (socketEffect (socketEffect_cleanup s) = socketEffect_cleanup s)
    as ->.
  { unfold socketEffect. by rewrite currentUser_socketEffect_cleanup, Hu. }
  unfold bootstrapEffect. by rewrite currentUser_socketEffect_cleanup, Hu.
Qed.

(** X23.  In every state the page reaches, the click on Logout leaves no
    socket object connected, driven or listened on, and the page holds
    none: a notification emitted afterwards on any socket changes
    nothing. *)
Lemma logout_leaves_no_socket_up ls es now :
  let s := run (mount ls) es in
  currentUser s ≠ None →
  let s' := step s (ClickLogout now) in
  socketRef s' = None ∧ effectSocket s' = None
  ∧ Forall (λ k, k = bare) (sockets s')
  ∧ ∀ h notif now', push h notif now' s' = s'.
Proof.
  simpl. intros Hu.
  pose proof (sockets_inv_run es _ (sockets_inv_mount ls)) as Hs.
  revert Hu Hs. generalize (run (mount ls) es). intros s Hu Hs.
  pose proof (sockets_inv_handle (ClickLogout now) _ Hs) as [He Hw].
  revert He Hw. unfold step, handle. destruct (currentUser s); [|done].
  destruct (sockets_inv_handleLogout now s Hs) as (_ & Hr & Hu').
  rewrite (afterUserChange_logged_out _ Hu').
  generalize dependent (handleLogout now s). clear. intros t Hr Hu He Hw.
  rewrite socketRef_socketEffect_cleanup, Hr in He.
  assert (Forall (λ k, k = bare) (sockets (socketEffect_cleanup t))) as Hall.
  { apply Forall_lookup. intros h k Hk.
    destruct (Hw h k Hk) as (? & ? & Hl).
    { by rewrite socketRef_socketEffect_cleanup, Hr. }
    apply bare_of_down; try done. apply Hl. by rewrite He. }
  change (socketRef (render ?x)) with (socketRef x).
  change (effectSocket (render ?x)) with (effectSocket x).
  change (sockets (render ?x)) with (sockets x).
  rewrite socketRef_socketEffect_cleanup.
  split_and!; try done.
  intros h notif now'. unfold push.
  change (sockets (render ?x)) with (sockets x).
  destruct (sockets _ !! h) as [k|] eqn:Ek; [|done].
  rewrite Forall_lookup in Hall. by rewrite (Hall h k Ek).
Qed.

(** ** Failed fetches *)

(** C6.  A rejected tasks fetch or notifications fetch leaves the task
    collection, the notification collection and the log cache as they were:
    in the continuation that handles the rejection, and so in the page when
    the rejection is delivered to any call. *)
Theorem failed_fetch_keeps_collections now message k s :
  let collections s := (tasks s, notifications s, logsByTask s) in
  collections (fetchTasks_then now (Rejected message) s) = collections s
  ∧ collections (fetchNotifications_then (Rejected message) s) = collections s
  ∧ collections (step s (Deliver k (ResTasks (Rejected message)) now))
    = collections s
  ∧ collections (step s (Deliver k (ResNotifications (Rejected message)) now))
    = collections s.
Proof.
  simpl. split_and!; try reflexivity.
  - unfold deliver. destruct (awaiting s !! k) as [[]|]; reflexivity.
  - unfold deliver. destruct (awaiting s !! k) as [[]|]; reflexivity.
Qed.

(** The rejection is handled, not dropped: the tasks fetch reports it in a
    toast and both log it, while the collections keep their entries. *)
Lemma failed_fetch_sample :
  let s := run loaded [ChangeFilterStatus "Pending"; ClickRefresh] in
  let s' := run s [Deliver 4 (ResTasks (Rejected None)) 3000;
                   Deliver 5 (ResNotifications (Rejected None)) 3001] in
  requests s !! 4 = Some (GetMyTasks [("status", "Pending")])
  ∧ requests s !! 5 = Some (GetNotifications "u1")
  ∧ tasks s' = [taskA; taskB] ∧ notifications s' = [n1]
  ∧ last (toasts s') = Some (ToastItem.mk "3000" "Failed to fetch tasks")
  ∧ console s' = ["Failed to fetch tasks:"; "Failed to fetch notifications:"].
Proof. vm_compute. done. Qed.

(** ** Push notifications *)

Lemma notifications_onNotification env now notif s :
  notifications (onNotification env now notif s) = notif :: notifications s.
Proof. unfold onNotification. by rewrite notifications_fetchTasks. Qed.

(** C1, as the code has it.  [onNotification] prepends what it is given
    without looking at the ids already held: a second delivery of the same
    notification puts a second entry in front of the first. *)
Theorem onNotification_twice_prepends_twice env env' now now' notif s :
  let once := onNotification env now notif s in
  let twice := onNotification env' now' notif once in
  notifications once = notif :: notifications s
  ∧ notifications twice = notif :: notif :: notifications s
  ∧ length (notifications twice) = S (length (notifications once)).
Proof.
  simpl. rewrite !notifications_onNotification. done.
Qed.

(** C1 fails on the page: the same notification delivered twice over the
    socket leaves a collection that differs from the one after a single
    delivery. *)
Lemma push_twice_differs_from_once :
  notifications (run loaded [Push 0 n2 1500; Push 0 n2 1501])
  ≠ notifications (run loaded [Push 0 n2 1500]).
Proof. vm_compute. intros H. discriminate H. Qed.

(** ** Overlapping task fetches *)

Lemma awaiting_render s : awaiting (render s) = awaiting s.
Proof. reflexivity. Qed.

Lemma tasks_render s : tasks (render s) = tasks s.
Proof. reflexivity. Qed.

Lemma step_deliver_tasks k body now s :
  awaiting s !! k = Some AwFetchTasks →
  step s (Deliver k (ResTasks (Fulfilled body)) now)
  = render (fetchTasks_then now (Fulfilled body)
              (with_awaiting (delete k) s)).
Proof.
  intros Hk. unfold step, handle, deliver. rewrite Hk.
  by destruct (currentUser s).
Qed.

(** C3, as the code has it.  [fetchTasks] attaches nothing to its call and
    its continuation stores whatever response it is resumed with, so of two
    overlapping fetches the response delivered last is the one shown,
    whichever call was issued first. *)
Theorem fetchTasks_last_delivered_wins s a b ra rb now now' :
  a ≠ b →
  awaiting s !! a = Some AwFetchTasks →
  awaiting s !! b = Some AwFetchTasks →
  tasks (run s [Deliver b (ResTasks (Fulfilled rb)) now;
                Deliver a (ResTasks (Fulfilled ra)) now'])
  = listOf ra.
Proof.
  intros Hab Ha Hb.
  change (tasks (step (step s (Deliver b (ResTasks (Fulfilled rb)) now))
                   (Deliver a (ResTasks (Fulfilled ra)) now')) = listOf ra).
  rewrite (step_deliver_tasks b) by done.
  rewrite step_deliver_tasks; [done|].
  simpl. by rewrite lookup_delete_ne.
Qed.

(** C3 fails on the page: filter A (status Pending, call 4) and then filter
    B (status Completed, call 5) are chosen, the response to B arrives
    first and the response to A second; the tasks shown at the end are
    those of A although the filter shown is B. *)
Lemma stale_tasks_response_overwrites :
  let s := run loaded [ChangeFilterStatus "Pending";
                       ChangeFilterStatus "Completed"] in
  let s' := run s [Deliver 5 (ResTasks (Fulfilled (BodyArray [taskB]))) 1400;
                   Deliver 4 (ResTasks (Fulfilled (BodyArray [taskA]))) 1401] in
  requests s !! 4 = Some (GetMyTasks [("status", "Pending")])
  ∧ requests s !! 5 = Some (GetMyTasks [("status", "Completed")])
  ∧ filterStatus s' = "Completed"
  ∧ tasks s' = [taskA]
  ∧ tasks s' ≠ [taskB].
Proof. vm_compute. split_and!; try reflexivity. intros H. discriminate H. Qed.

Lemma fetchTasks_last_delivered_wins_witness :
  tasks (run (run loaded [ChangeFilterStatus "Pending";
                          ChangeFilterStatus "Completed"])
           [Deliver 5 (ResTasks (Fulfilled (BodyArray [taskB]))) 1400;
            Deliver 4 (ResTasks (Fulfilled (BodyArray [taskA]))) 1401])
  = [taskA].
Proof.
  apply (fetchTasks_last_delivered_wins _ 4 5 (BodyArray [taskA])
           (BodyArray [taskB])).
  - lia.
  - vm_compute. reflexivity.
  - vm_compute. reflexivity.
Defined.

(** ** Marking notifications read *)

Lemma readAll_isRead n : INotification.isRead (readAll n) = true.
Proof. unfold readAll. by destruct (INotification.isRead n) eqn:E. Qed.

Lemma readAll_key n : INotification.key (readAll n) = INotification.key n.
Proof. unfold readAll. by destruct (INotification.isRead n). Qed.

Lemma readOne_key nid n :
  INotification.key (readOne nid n) = INotification.key n.
Proof. unfold readOne. by case_decide. Qed.

(** C4, as the code has it.  [markNotificationRead] changes nothing in the
    collection when it issues the confirm call.  The entry with the given id
    is flipped to read only when the call is fulfilled with [success] set;
    when the call is rejected, or fulfilled without a body, the collection
    stays as it was and the error is logged. *)
Theorem markNotificationRead_flips_on_success_only env nid message body s :
  notifications (markNotificationRead env nid s) = notifications s
  ∧ notifications (markNotificationRead_then nid (Fulfilled (Some body)) s)
    = (if success body then map (readOne nid) (notifications s)
       else notifications s)
  ∧ notifications (markNotificationRead_then nid (Rejected message) s)
    = notifications s
  ∧ notifications (markNotificationRead_then nid (Fulfilled None) s)
    = notifications s
  ∧ console (markNotificationRead_then nid (Rejected message) s)
    = console s ++ ["Error marking notification as read:"].
Proof.
  split_and!; try reflexivity.
  - unfold markNotificationRead. by destruct (c_currentUser env).
  - simpl. by destruct (success body).
Qed.

(** C4 fails on the page: after the click on the unread notification [n1]
    the confirm call is out and not yet answered, and the entry is still
    unread; a rejection then leaves it unread. *)
Lemma markRead_is_not_optimistic :
  let s := step loaded (ClickNotification 0) in
  let s' := step s (Deliver 4 (ResPatch (Rejected None)) 1600) in
  requests s !! 4 = Some (PatchRead "u1" "n1")
  ∧ awaiting s !! 4 = Some (AwMarkNotificationRead "n1")
  ∧ notifications s = [n1]
  ∧ notifications s ≠ map (readOne "n1") (notifications loaded)
  ∧ notifications s' = [n1].
Proof. vm_compute. split_and!; try reflexivity. intros H. discriminate H. Qed.

Lemma issued_await r k s : issued s (await r k s) = [r].
Proof. unfold issued, await; simpl. by rewrite drop_app_length. Qed.

Lemma issued_none s s' : requests s' = requests s → issued s s' = [].
Proof. unfold issued. intros ->. by rewrite drop_all. Qed.

(** C8, as the code has it.  For a logged-in user, [markAllReadLocal]
    issues no call when the notifications of its render hold no unread entry
    and exactly one batch call otherwise, and in both cases leaves the
    collection as it is.  The unread entries are flipped when that call is
    fulfilled with [success] set; when it is rejected, or fulfilled without
    a body or without [success], the collection stays as it was. *)
Theorem markAllReadLocal_calls_once_flips_on_success env now u s :
  c_currentUser env = Some u →
  let unread :=
    filter (λ n, negb (INotification.isRead n)) (c_notifications env) in
  let s' := markAllReadLocal env now s in
  notifications s' = notifications s
  ∧ issued s s'
    = (if decide (unread = []) then [] else [PatchMarkRead (getUserId u)])
  ∧ (∀ now' body,
       notifications (markAllReadLocal_then now' (Fulfilled (Some body)) s')
       = if success body then map readAll (notifications s)
         else notifications s)
  ∧ (∀ now' message,
       notifications (markAllReadLocal_then now' (Rejected message) s')
       = notifications s)
  ∧ (∀ now',
       notifications (markAllReadLocal_then now' (Fulfilled None) s')
       = notifications s).
Proof.
  intros Hu; simpl. unfold markAllReadLocal. rewrite Hu.
  destruct (filter _ (c_notifications env)) as [|n l] eqn:Hunread; simpl.
  - rewrite issued_none by done. split_and!; try done.
    intros now' body. by destruct (success body).
  - rewrite issued_await. split_and!; try done.
    intros now' body. by destruct (success body).
Qed.

Lemma markAllReadLocal_calls_once_witness :
  let unread :=
    filter (λ n, negb (INotification.isRead n))
      (c_notifications (closure_of loaded)) in
  let s' := markAllReadLocal (closure_of loaded) 1700 loaded in
  notifications s' = notifications loaded
  ∧ issued loaded s'
    = (if decide (unread = []) then [] else [PatchMarkRead (getUserId alice)])
  ∧ (∀ now' body,
       notifications (markAllReadLocal_then now' (Fulfilled (Some body)) s')
       = if success body then map readAll (notifications loaded)
         else notifications loaded)
  ∧ (∀ now' message,
       notifications (markAllReadLocal_then now' (Rejected message) s')
       = notifications loaded)
  ∧ (∀ now',
       notifications (markAllReadLocal_then now' (Fulfilled None) s')
       = notifications loaded).
Proof.
  apply (markAllReadLocal_calls_once_flips_on_success
           (closure_of loaded) 1700 alice loaded).
  vm_compute. reflexivity.
Defined.

(** C8 fails on the page: with one unread notification, Mark all read
    issues its one call, the call is rejected, and the entry is still
    unread. *)
Lemma markAllRead_rejected_keeps_unread :
  let s := run loaded [ClickMarkAllRead 1700;
                       Deliver 4 (ResPatch (Rejected None)) 1701] in
  issued loaded s = [PatchMarkRead "u1"]
  ∧ notifications s = [n1]
  ∧ notifications s ≠ map readAll (notifications loaded).
Proof. vm_compute. split_and!; try reflexivity. intros H. discriminate H. Qed.

(** With nothing unread the click issues no call and changes no entry. *)
Lemma markAllRead_nothing_unread_sample :
  let s := run loaded [ClickMarkAllRead 1700;
                       Deliver 4 (patched "1") 1701] in
  let s' := step s (ClickMarkAllRead 1800) in
  notifications s = [INotification.withRead n1]
  ∧ issued s s' = [] ∧ notifications s' = notifications s
  ∧ last (toasts s')
    = Some (ToastItem.mk "1800" "No unread notifications to mark").
Proof. vm_compute. done. Qed.

(** ** What an event does to the notification collection and the cache *)

Lemma unreadMemo_deliver k r now s :
  unreadMemo (deliver k r now s) = unreadMemo s.
Proof.
  unfold deliver. destruct (awaiting s !! k) as [aw|]; [|done].
  destruct aw, r; simpl; try done; frame.
Qed.

Lemma unreadMemo_handle e s : unreadMemo (handle e s) = unreadMemo s.
Proof.
  destruct e; unfold handle; destruct (currentUser s);
    try done; try apply unreadMemo_deliver; frame.
Qed.

Lemma notifications_deliver k r now s :
  NotifChange s (Deliver k r now) (notifications (deliver k r now s)).
Proof.
  unfold deliver. destruct (awaiting s !! k) as [aw|]; [|constructor].
  destruct aw, r; try exact (change_none _ _);
    unfold resume; cbn [from_option id];
    autorewrite with page; try exact (change_none _ _);
    repeat match goal with o : Outcome _ |- _ => destruct o end;
    simpl; autorewrite with page; try exact (change_none _ _).
  - econstructor; reflexivity.
  - destruct data as [body|]; [|exact (change_none _ _)].
    destruct (success body);
      [exact (change_readOne _ _ _)|exact (change_none _ _)].
  - destruct data as [body|]; [|exact (change_none _ _)].
    destruct (success body);
      [exact (change_readAll _ _)|exact (change_none _ _)].
Qed.

Lemma notifications_push h notif now s :
  NotifChange s (Push h notif now) (notifications (push h notif now s)).
Proof.
  unfold push. repeat case_match; try exact (change_none _ _).
  rewrite notifications_onNotification. econstructor; reflexivity.
Qed.

Lemma notifications_handle e s : NotifChange s e (notifications (handle e s)).
Proof.
  destruct e; unfold handle; destruct (currentUser s);
    try apply notifications_deliver; try apply notifications_push;
    try exact (change_none _ _); frame;
    first [exact (change_none _ _) | apply change_reset].
Qed.

(** ** One entry per id *)

Lemma uniqueIds_map f l :
  (∀ n, INotification.key (f n) = INotification.key n) →
  uniqueIds l → uniqueIds (map f l).
Proof.
  intros Hf. unfold uniqueIds. rewrite map_map.
  by rewrite (map_ext _ INotification.key Hf).
Qed.

Lemma notifications_step s e :
  notifications (step s e) = notifications (handle e s).
Proof. reflexivity. Qed.

Lemma uniqueIds_step s e :
  uniqueIds (notifications s) → clean s e →
  uniqueIds (notifications (step s e)).
Proof.
  intros Hs He. rewrite notifications_step.
  destruct (notifications_handle e s) as [|h notif now ->|k body now ->|nid| |].
  - exact Hs.
  - apply NoDup_cons. split; [exact He | exact Hs].
  - exact He.
  - apply uniqueIds_map; [apply readOne_key | exact Hs].
  - apply uniqueIds_map; [apply readAll_key | exact Hs].
  - apply NoDup_nil_2.
Qed.

Lemma uniqueIds_run es s :
  uniqueIds (notifications s) → all_clean s es →
  uniqueIds (notifications (run s es)).
Proof.
  revert s. induction es as [|e es IH]; intros s Hs Hes; [done|].
  destruct Hes as [He Hes]. apply (IH (step s e)); [|done].
  by apply uniqueIds_step.
Qed.

Lemma notifications_mount ls : notifications (mount ls) = [].
Proof.
  unfold mount. destruct (ls_currentUser ls) as [[u|]|]; simpl; frame.
Qed.

(** C2, as the code has it.  The collection holds every id at most once as
    long as no event brings a second entry for an id: every notification
    pushed has an id the collection does not hold when it arrives, and every
    fetched notification list holds each id once.  [markNotificationRead],
    [markAllReadLocal] and logout never add an entry. *)
Theorem uniqueIds_while_events_clean ls es :
  all_clean (mount ls) es →
  uniqueIds (notifications (run (mount ls) es)).
Proof.
  apply uniqueIds_run. rewrite notifications_mount. apply NoDup_nil_2.
Qed.

(** C2 fails on the page: the notification [n1] is in the fetched list and
    is then delivered over the socket as well; the collection holds its id
    twice. *)
Lemma push_after_snapshot_duplicates_id :
  ¬ uniqueIds (notifications (run loaded [Push 0 n1 1500])).
Proof.
  intros H. apply (bool_decide_pack _) in H. vm_compute in H. exact H.
Qed.

Lemma uniqueIds_while_events_clean_witness :
  uniqueIds
    (notifications
       (run (mount (mkStorage None None))
          (login_alice ++
           [Deliver 3 (ResNotifications (Fulfilled (BodyArray [n1]))) 1102;
            Push 0 n2 1500;
            ClickNotification 1;
            Deliver 5 (patched "1") 1600;
            ClickMarkAllRead 1700;
            Deliver 6 (patched "1") 1701]))).
Proof.
  apply uniqueIds_while_events_clean.
  cbn [all_clean clean login_alice app]. unfold uniqueIds.
  split_and!; try exact I; apply (bool_decide_unpack _); vm_compute; exact I.
Defined.

(** ** Unread count *)

Lemma length_filter_unread l :
  length (filter (λ n, negb (INotification.isRead n)) l) = count_unread l.
Proof.
  induction l as [|n l IH]; [done|]. simpl.
  destruct (INotification.isRead n) eqn:E.
  - rewrite filter_cons_False; [done|]. rewrite E. simpl. tauto.
  - rewrite filter_cons_True; [by simpl; rewrite IH|]. by rewrite E.
Qed.

(** After a render the cache holds the current collection and its count. *)
Lemma unreadMemo_render s :
  memo_ok s →
  unreadMemo (render s)
  = Some (notifications s, count_unread (notifications s)).
Proof.
  unfold memo_ok, render, unreadCount_memo, useMemo; simpl.
  destruct (unreadMemo s) as [[d v]|]; [|by rewrite length_filter_unread].
  intros ->. case_decide as Hd.
  - by rewrite Hd, length_filter_unread.
  - by rewrite length_filter_unread.
Qed.

Lemma memo_ok_handle e s :
  unreadMemo s = Some (notifications s, count_unread (notifications s)) →
  memo_ok (handle e s).
Proof.
  intros Hs. unfold memo_ok. rewrite unreadMemo_handle, Hs.
  by rewrite length_filter_unread.
Qed.

Lemma unreadMemo_mount ls :
  unreadMemo (mount ls)
  = Some (notifications (mount ls), count_unread (notifications (mount ls))).
Proof.
  unfold mount. rewrite unreadMemo_render; [done|]. unfold memo_ok.
  destruct (ls_currentUser ls) as [[u|]|]; simpl; by autorewrite with page.
Qed.

Lemma unreadMemo_run es s :
  unreadMemo s = Some (notifications s, count_unread (notifications s)) →
  unreadMemo (run s es)
  = Some (notifications (run s es), count_unread (notifications (run s es))).
Proof.
  revert s. induction es as [|e es IH]; intros s Hs; [done|].
  apply (IH (step s e)). unfold step.
  rewrite unreadMemo_render by by apply memo_ok_handle. done.
Qed.

(** C7.  In every state the page reaches, the unread count shown is the
    number of entries of the current collection whose [isRead] is false.
    No handler writes the count: it is the [useMemo] value of the render,
    and the cache behind it holds the current collection and its count
    after every event. *)
Theorem unreadCount_is_count_of_collection ls es :
  let s := run (mount ls) es in
  unreadCount s = count_unread (notifications s)
  ∧ unreadCount s
    = length (filter (λ n, negb (INotification.isRead n)) (notifications s))
  ∧ unreadMemo s = Some (notifications s, count_unread (notifications s)).
Proof.
  simpl. pose proof (unreadMemo_run es _ (unreadMemo_mount ls)) as Hm.
  assert (unreadCount (run (mount ls) es)
          = count_unread (notifications (run (mount ls) es))) as Hc.
  { unfold unreadCount, unreadCount_memo, useMemo. rewrite Hm.
    by rewrite decide_True. }
  split_and!; [done| |done].
  by rewrite length_filter_unread.
Qed.

(** The count through the four reconciler operations. *)
Lemma unreadCount_sample :
  let s0 := logged_in in
  let s1 := step s0 (Deliver 3 (ResNotifications
                                  (Fulfilled (BodyArray [n1; n2]))) 1102) in
  let s2 := step s1 (Push 0 n1 1500) in
  let s3 := run s2 [ClickNotification 1;
                    Deliver 5 (patched "1") 1600] in
  let s4 := run s3 [ClickMarkAllRead 1700;
                    Deliver 6 (patched "2") 1701] in
  map unreadCount [s0; s1; s2; s3; s4] = [0; 2; 3; 1; 0].
Proof. vm_compute. reflexivity. Qed.

(** * Further properties *)


(** ** Steps that deliver a response *)

Lemma step_deliver_awaited k aw r now s s' :
  awaiting s !! k = Some aw →
  resume aw r now (with_awaiting (delete k) s) = Some s' →
  step s (Deliver k r now) = render s'.
Proof.
  intros Hk Hr. unfold step, handle, deliver. rewrite Hk, Hr.
  by destruct (currentUser s).
Qed.

Lemma handle_deliver k r now s :
  handle (Deliver k r now) s = deliver k r now s.
Proof. unfold handle. by destruct (currentUser s). Qed.

Lemma awaiting_after_await r aw s :
  awaiting (await r aw s) !! length (requests s) = Some aw.
Proof. unfold await; simpl. apply lookup_insert_eq. Qed.

(** ** Tasks: create, update, delete *)

(** X1.  A task is created and then deleted: the response to the create call
    puts the new task in front, the click on its Delete button issues the
    delete call for its id and nothing else, and the response to that call
    leaves the task collection as it was before the create, as long as no
    other task had the new task's id.  The create response issues no call. *)
Theorem create_then_delete_restores_tasks s k t now now' :
  currentUser s ≠ None →
  awaiting s !! k = Some (AwSubmitTask None) →
  Forall (λ x, getTaskId x ≠ getTaskId t) (tasks s) →
  let s1 := step s (Deliver k (ResTask (Fulfilled t)) now) in
  let s2 := step s1 (ClickDelete 0 true) in
  let s3 := step s2 (Deliver (length (requests s))
                       (ResDelete (Fulfilled ())) now') in
  tasks s1 = t :: tasks s
  ∧ issued s s1 = []
  ∧ issued s1 s2 = [DeleteTask (getTaskId t)]
  ∧ tasks s3 = tasks s.
Proof.
  intros Hu Hk Hall; cbv zeta.
  erewrite (step_deliver_awaited k); [|exact Hk|reflexivity].
  set (s1 := render (submitTask_then None now (Fulfilled t)
                       (with_awaiting (delete k) s))).
  assert (step s1 (ClickDelete 0 true)
          = render (await (DeleteTask (getTaskId t))
                      (AwDeleteTask (getTaskId t))
                      (setLoading (const true) s1))) as ->.
  { unfold step, handle. simpl. by destruct (currentUser s). }
  erewrite (step_deliver_awaited _ (AwDeleteTask (getTaskId t)));
    [|apply lookup_insert_eq|reflexivity].
  split_and!.
  - reflexivity.
  - by apply issued_none.
  - unfold issued, await; simpl. by rewrite drop_app_length.
  - change (filter (λ x, getTaskId x ≠ getTaskId t) (t :: tasks s)
            = tasks s).
    rewrite filter_cons_False by (intros H; by apply H).
    by apply filter_keeps_all.
Qed.

Lemma update_ids_unchanged (t updated : ITask.t) (l : list ITask.t) :
  getTaskId updated = getTaskId t →
  map getTaskId
    (map (λ x, if decide (getTaskId x = getTaskId t) then updated else x) l)
  = map getTaskId l.
Proof.
  intros Hid. rewrite map_map. apply map_ext. intros x.
  case_decide; congruence.
Qed.

(** X2.  The response to an update replaces the entries that have the id of
    the edited task and keeps every other entry at its place: the length is
    the same, the ids are the same when the stored task kept its id, and
    nothing changes when no entry has the edited id any more. *)
Theorem update_keeps_places s t updated now :
  let s' := submitTask_then (Some t) now (Fulfilled updated) s in
  length (tasks s') = length (tasks s)
  ∧ (∀ i x, tasks s !! i = Some x →
       tasks s' !! i
       = Some (if decide (getTaskId x = getTaskId t) then updated else x))
  ∧ (getTaskId updated = getTaskId t →
       map getTaskId (tasks s') = map getTaskId (tasks s))
  ∧ (Forall (λ x, getTaskId x ≠ getTaskId t) (tasks s) →
       tasks s' = tasks s).
Proof.
  simpl. split_and!.
  - by rewrite length_map.
  - intros i x Hi.
    change (map ?f ?l) with (f <$> l). by rewrite list_lookup_fmap, Hi.
  - apply update_ids_unchanged.
  - intros Hall. induction Hall as [|x l Hx _ IH]; [done|]. simpl.
    rewrite IH. by rewrite decide_False.
Qed.


(** ** The log cache *)

(** X4.  The log of a task is fetched while the task is being deleted.  When
    the log response comes first, the delete response removes the cached
    log.  When the delete response comes first, the log response stores the
    log of the deleted task in the cache again, although the task
    collection holds no task with that id. *)
Theorem logs_response_and_delete_in_either_order s k1 k2 taskId body now now' :
  k1 ≠ k2 →
  awaiting s !! k1 = Some (AwFetchLogs taskId) →
  awaiting s !! k2 = Some (AwDeleteTask taskId) →
  let logs := Deliver k1 (ResLogs (Fulfilled body)) now in
  let deleted := Deliver k2 (ResDelete (Fulfilled ())) now' in
  logsByTask (step s logs) !! taskId = Some (listOf body)
  ∧ logsByTask (run s [logs; deleted]) = delete taskId (logsByTask s)
  ∧ logsByTask (run s [deleted; logs])
    = <[taskId := listOf body]> (logsByTask s)
  ∧ Forall (λ x, getTaskId x ≠ taskId) (tasks (run s [deleted; logs])).
Proof.
  intros Hne H1 H2; cbv zeta. unfold run; simpl foldl.
  erewrite (step_deliver_awaited k1 (AwFetchLogs taskId) _ _ s);
    [|done|reflexivity].
  erewrite (step_deliver_awaited k2 (AwDeleteTask taskId) _ _ (render _));
    [|simpl; by rewrite lookup_delete_ne|reflexivity].
  erewrite (step_deliver_awaited k2 (AwDeleteTask taskId) _ _ s);
    [|done|reflexivity].
  erewrite (step_deliver_awaited k1 (AwFetchLogs taskId) _ _ (render _));
    [|simpl; by rewrite lookup_delete_ne|reflexivity].
  simpl. split_and!.
  - apply lookup_insert_eq.
  - apply delete_insert_eq.
  - apply insert_delete_eq.
  - apply Forall_forall. intros x Hx%list_elem_of_filter. tauto.
Qed.

(** ** Rejected calls *)

(** X5.  A rejected response, to whatever call, changes none of the data of
    the page: user, users, tasks, notifications, log cache, stored session,
    sockets, and it issues no call. *)
Theorem rejected_response_keeps_data s k r now :
  isRejected r = true →
  let s' := step s (Deliver k r now) in
  currentUser s' = currentUser s ∧ users s' = users s
  ∧ tasks s' = tasks s ∧ notifications s' = notifications s
  ∧ logsByTask s' = logsByTask s ∧ localStorage s' = localStorage s
  ∧ sockets s' = sockets s ∧ socketRef s' = socketRef s
  ∧ requests s' = requests s.
Proof.
  intros Hr; cbv zeta. unfold step. rewrite handle_deliver.
  unfold deliver. destruct (awaiting s !! k) as [aw|]; [|done].
  destruct aw, r as [[]|[]|[]|[]|[]|[]|[]|[]|[]]; try discriminate Hr; done.
Qed.

(** X6.  A rejected call shows exactly one toast, stamped with the clock
    reading of the rejection, except the notifications fetch and the
    mark-one-read call, which show none; the fetches and the two read calls
    write one line to the console, the form submissions and the delete
    write none. *)
Theorem rejected_response_toasts_once s k aw r now :
  awaiting s !! k = Some aw →
  is_Some (resume aw r now s) →
  isRejected r = true →
  let s' := step s (Deliver k r now) in
  (∃ message,
     toasts s'
     = toasts s ++ (if silent aw then []
                    else [ToastItem.mk (toString now) message]))
  ∧ length (console s')
    = length (console s) + (if logsFailure aw then 1 else 0).
Proof.
  intros Hk [x Hres] Hr; cbv zeta.
  assert (∃ s', resume aw r now (with_awaiting (delete k) s) = Some s')
    as [s' Hres'].
  { destruct aw, r; try discriminate Hres; eauto. }
  rewrite (step_deliver_awaited _ _ _ _ _ _ Hk Hres').
  destruct aw, r as [[]|[]|[]|[]|[]|[]|[]|[]|[]];
    try discriminate Hr; try discriminate Hres';
    injection Hres' as <-; simpl; rewrite ?app_nil_r, ?length_app; simpl;
    (split; [first [by exists "" | by eexists] | lia]).
Qed.

(** ** The loading flag *)

Lemma loading_inv_ext s s' :
  loading s' = loading s → awaiting s' = awaiting s →
  requests s' = requests s → loading_inv s → loading_inv s'.
Proof. unfold loading_inv. by intros -> -> ->. Qed.

Lemma loading_inv_await r aw s :
  loading_inv s → loading_inv (await r aw s).
Proof.
  intros [Hb Hl]. split; simpl.
  - intros k. rewrite length_app; simpl.
    destruct (decide (k = length (requests s))) as [->|Hne]; [lia|].
    rewrite lookup_insert_ne by done. intros Hk%Hb. lia.
  - intros (k & a & Hk & Ha)%Hl. exists k, a. split; [|done].
    rewrite lookup_insert_ne; [done|].
    intros <-. specialize (Hb (length (requests s))).
    rewrite Hk in Hb. specialize (Hb ltac:(eauto)). lia.
Qed.

Lemma loading_inv_await_loading r aw s :
  setsLoading aw = true → loading_inv s →
  loading_inv (await r aw (setLoading (const true) s)).
Proof.
  intros Ha [Hb Hl]. split; simpl.
  - intros k. rewrite length_app; simpl.
    destruct (decide (k = length (requests s))) as [->|Hne]; [lia|].
    rewrite lookup_insert_ne by done. intros Hk%Hb. lia.
  - intros _. exists (length (requests s)), aw.
    by rewrite lookup_insert_eq.
Qed.

Lemma loading_inv_cleared k s s' :
  loading s' = false → awaiting s' = delete k (awaiting s) →
  requests s' = requests s → loading_inv s → loading_inv s'.
Proof.
  intros Hl Ha Hr [Hb _]. split; [|by rewrite Hl].
  intros k'. rewrite Ha, Hr. intros [x Hx]. apply Hb.
  apply lookup_delete_Some in Hx as [_ Hx]. eauto.
Qed.

Lemma loading_inv_resumed k aw s s' :
  awaiting s !! k = Some aw → setsLoading aw = false →
  loading s' = loading s → awaiting s' = delete k (awaiting s) →
  requests s' = requests s → loading_inv s → loading_inv s'.
Proof.
  intros Hk Haw Hl Ha Hr [Hb Hload]. split.
  - intros k'. rewrite Ha, Hr. intros [x Hx]. apply Hb.
    apply lookup_delete_Some in Hx as [_ Hx]. eauto.
  - rewrite Hl, Ha. intros (k' & a & Hk' & Hset)%Hload.
    exists k', a. split; [|done]. rewrite lookup_delete_ne; [done|].
    intros <-. congruence.
Qed.

Lemma loading_inv_fetchTasks env s :
  loading_inv s → loading_inv (fetchTasks env s).
Proof.
  intros Hs. unfold fetchTasks. destruct (c_currentUser env); [|done].
  by apply loading_inv_await_loading.
Qed.

Lemma loading_inv_fetchNotifications env s :
  loading_inv s → loading_inv (fetchNotifications env s).
Proof.
  intros Hs. unfold fetchNotifications.
  destruct (c_currentUser env); [|done]. by apply loading_inv_await.
Qed.

Lemma loading_inv_bootstrapEffect s :
  loading_inv s → loading_inv (bootstrapEffect s).
Proof.
  intros Hs. unfold bootstrapEffect. destruct (currentUser s); [|done].
  apply loading_inv_fetchNotifications, loading_inv_fetchTasks.
  by apply loading_inv_await_loading.
Qed.

Lemma loading_inv_afterUserChange s :
  loading_inv s → loading_inv (afterUserChange s).
Proof.
  intros Hs. unfold afterUserChange. apply loading_inv_bootstrapEffect.
  eapply loading_inv_ext; [..|exact Hs];
    unfold socketEffect, socketEffect_cleanup; repeat case_match; done.
Qed.

Lemma loading_inv_deliver k r now s :
  loading_inv s → loading_inv (deliver k r now s).
Proof.
  intros Hs. unfold deliver.
  destruct (awaiting s !! k) as [aw|] eqn:Hk; [|done].
  destruct aw, r; try done; unfold resume; cbn [from_option id];
    repeat match goal with o : Outcome _ |- _ => destruct o end.
  all: try (apply loading_inv_afterUserChange).
  all: unfold handleRegister_then, handleLogin_then, submitTask_then,
         fetchUsers_then, fetchTasks_then, fetchNotifications_then,
         fetchLogs_then, deleteTask_then, markNotificationRead_then,
         markAllReadLocal_then.
  all: try solve
    [ eapply (loading_inv_cleared k); [..|exact Hs];
      repeat case_match; reflexivity ].
  all: eapply (loading_inv_resumed k); [exact Hk|reflexivity|..|exact Hs];
    repeat case_match; reflexivity.
Qed.

Lemma loading_inv_handle e s : loading_inv s → loading_inv (handle e s).
Proof.
  intros Hs. destruct e; unfold handle; destruct (currentUser s) eqn:Hu;
    try done; try by apply loading_inv_deliver.
  all: try match goal with
           | |- loading_inv (afterUserChange _) =>
               apply loading_inv_afterUserChange
           | |- loading_inv (if _ then _ else _) => case_decide; [done|]
           end.
  all: unfold push, onNotification, clickNotification, filterEffect,
         markAllReadLocal, markNotificationRead, deleteTask, fetchLogs,
         handleRegister, handleLogin, submitTask, handleLogout,
         socketConnect, socketDrop, removeToast, showToast.
  all: repeat case_match; try done.
  all: repeat first
         [ apply loading_inv_bootstrapEffect
         | apply loading_inv_fetchTasks
         | apply loading_inv_fetchNotifications
         | by apply loading_inv_await_loading
         | by apply loading_inv_await ].
  all: by eapply loading_inv_ext; [..|exact Hs].
Qed.

Lemma loading_inv_render s : loading_inv s → loading_inv (render s).
Proof. by apply loading_inv_ext. Qed.

Lemma loading_inv_mount ls : loading_inv (mount ls).
Proof.
  unfold mount. apply loading_inv_render.
  assert (loading_inv (init ls)) as Hi.
  { split; [|done]. intros k [x Hx]. simpl in Hx.
    by rewrite lookup_empty in Hx. }
  destruct (ls_currentUser ls) as [[u|]|]; [|by eapply loading_inv_ext|done].
  apply loading_inv_afterUserChange. by eapply loading_inv_ext; [..|exact Hi].
Qed.

(** X7.  In every state the page reaches, every awaited call has been issued,
    and [loading] is set only while a call whose continuation clears it is
    still awaited: the spinner cannot stay on after the last such call has
    answered. *)
Theorem loading_only_while_awaited ls es :
  let s := run (mount ls) es in
  (∀ k, is_Some (awaiting s !! k) → k < length (requests s))
  ∧ (loading s = true →
     ∃ k aw, awaiting s !! k = Some aw ∧ setsLoading aw = true).
Proof.
  cbv zeta. change (loading_inv (run (mount ls) es)).
  generalize (loading_inv_mount ls). generalize (mount ls).
  induction es as [|e es IH]; intros s Hs; [done|].
  apply (IH (step s e)). unfold step.
  by apply loading_inv_render, loading_inv_handle.
Qed.

(** ** Toast ids on the page *)

Lemma toasts_fetchTasks env s : toasts (fetchTasks env s) = toasts s.
Proof. unfold fetchTasks. by case_match. Qed.

Lemma toasts_afterUserChange s : toasts (afterUserChange s) = toasts s.
Proof.
  unfold afterUserChange, bootstrapEffect, fetchNotifications, fetchTasks,
    fetchUsers, socketEffect, socketEffect_cleanup.
  repeat case_match; reflexivity.
Qed.

Lemma toasts_deliver k r now s :
  ToastChange s (Deliver k r now) (toasts (deliver k r now s)).
Proof.
  unfold deliver. destruct (awaiting s !! k) as [aw|]; [|constructor].
  destruct aw, r; try exact (toasts_same _ _);
    unfold resume; cbn [from_option id];
    repeat match goal with o : Outcome _ |- _ => destruct o end;
    rewrite ?toasts_afterUserChange;
    unfold handleRegister_then, handleLogin_then, submitTask_then,
      fetchUsers_then, fetchTasks_then, fetchNotifications_then,
      fetchLogs_then, deleteTask_then, markNotificationRead_then,
      markAllReadLocal_then;
    repeat case_match; cbn -[toString];
    first [ exact (toasts_same _ _)
          | by apply toasts_pushed ].
Qed.

Lemma toasts_handle e s : ToastChange s e (toasts (handle e s)).
Proof.
  destruct e; unfold handle; destruct (currentUser s);
    try exact (toasts_same _ _); try apply toasts_deliver;
    rewrite ?toasts_afterUserChange;
    unfold push, onNotification, clickNotification, filterEffect,
      bootstrapEffect, markAllReadLocal, markNotificationRead, deleteTask,
      fetchLogs, fetchNotifications, fetchUsers, handleLogout;
    repeat case_match; rewrite ?toasts_fetchTasks; cbn -[toString];
    rewrite ?toasts_fetchTasks;
    first [ exact (toasts_same _ _)
          | by apply toasts_pushed
          | exact (toasts_removed _ _ _) ].
Qed.

Lemma toasts_upto_mono last last' l :
  (last ≤ last')%Z → toasts_upto last l → toasts_upto last' l.
Proof.
  intros Hle [Hall Hnd]. split; [|done].
  eapply Forall_impl; [exact Hall|]. intros x (t & Hx & Ht).
  exists t. split; [done|lia].
Qed.

Lemma toasts_upto_filter last (P : ToastItem.t → Prop)
  `{∀ x, Decision (P x)} l :
  toasts_upto last l → toasts_upto last (filter P l).
Proof.
  intros [Hall Hnd]. split.
  - apply Forall_forall. intros x [_ Hx]%list_elem_of_filter.
    rewrite Forall_forall in Hall. by apply Hall.
  - eapply sublist_NoDup; [exact Hnd|].
    apply (fmap_sublist ToastItem.id), sublist_filter.
Qed.

Lemma toasts_upto_push last now message l :
  (last < now)%Z → toasts_upto last l →
  toasts_upto now (l ++ [ToastItem.mk (toString now) message]).
Proof.
  intros Hlt [Hall Hnd]. split.
  - apply Forall_app. split.
    + eapply Forall_impl; [exact Hall|]. intros x (t & Hx & Ht).
      exists t. split; [done|lia].
    + apply Forall_singleton. exists now. split; [done|lia].
  - rewrite map_app. apply NoDup_app. split_and!; [done| |].
    + intros i Hi ->%list_elem_of_singleton.
      apply list_elem_of_fmap in Hi as (x & Hid & Hx).
      rewrite Forall_forall in Hall. destruct (Hall x Hx) as (t & Ht & Hle).
      simpl in Hid. rewrite Ht in Hid. apply (inj pretty) in Hid. lia.
    + apply NoDup_singleton.
Qed.

Lemma toasts_upto_step last e s :
  toasts_upto last (toasts s) →
  match eventTime e with
  | Some now => (last < now)%Z → toasts_upto now (toasts (step s e))
  | None => toasts_upto last (toasts (step s e))
  end.
Proof.
  intros Hs. change (toasts (step s e)) with (toasts (handle e s)).
  destruct (toasts_handle e s) as [|now message Hnow|id].
  - destruct (eventTime e); [|done]. intros Hlt.
    apply (toasts_upto_mono last); [lia|done].
  - rewrite Hnow. intros Hlt. by apply (toasts_upto_push last).
  - destruct (eventTime e).
    + intros Hlt. apply (toasts_upto_mono last); [lia|].
      by apply toasts_upto_filter.
    + by apply toasts_upto_filter.
Qed.

Lemma toasts_upto_run es last s :
  toasts_upto last (toasts s) → increasing last es →
  ∃ last', toasts_upto last' (toasts (run s es)).
Proof.
  revert last s. induction es as [|e es IH]; intros last s Hs Hes; [eauto|].
  simpl in Hes. pose proof (toasts_upto_step last e s Hs) as Hstep.
  destruct (eventTime e) as [now|].
  - destruct Hes as [Hlt Hes]. apply (IH now (step s e)); auto.
  - apply (IH last (step s e)); auto.
Qed.

Lemma toasts_mount ls : toasts (mount ls) = [].
Proof.
  unfold mount. change (toasts (render ?x)) with (toasts x).
  destruct (ls_currentUser ls) as [[u|]|]; [|done..].
  by rewrite toasts_afterUserChange.
Qed.

(** X8.  When the clock readings of the events grow strictly, the toasts in
    the queue have pairwise different ids in every state the page reaches,
    and closing a toast removes that toast and no other. *)
Theorem toast_ids_distinct_on_increasing_clock ls es last :
  increasing last es →
  let s := run (mount ls) es in
  NoDup (map ToastItem.id (toasts s))
  ∧ ∀ l1 t l2, toasts s = l1 ++ t :: l2 →
      toasts (step s (CloseToast (ToastItem.id t))) = l1 ++ l2.
Proof.
  intros Hes; cbv zeta.
  destruct (toasts_upto_run es last (mount ls)) as (last' & _ & Hnd);
    [|done|].
  { rewrite toasts_mount. split; [constructor|apply NoDup_nil_2]. }
  split; [done|]. intros l1 t l2 Hl.
  change (toasts (step ?s (CloseToast ?i))) with (toasts (removeToast i s)).
  by apply removeToast_only_that_one.
Qed.

(** ** The session and its socket *)

Lemma same_session_inv s s' :
  same_session s s' → session_inv s → session_inv s'.
Proof.
  intros [(Hs & Hr & _) Hu] [Hiff Hheld]. unfold session_inv.
  rewrite Hs, Hr, Hu. done.
Qed.

Lemma same_session_deliver k r now s :
  (∀ o, r ≠ ResLogin (Fulfilled o)) → same_session s (deliver k r now s).
Proof.
  intros Hr. split; [by apply same_sockets_deliver|].
  unfold deliver. destruct (awaiting s !! k) as [aw|]; [|done].
  destruct aw, r; try done; unfold resume; cbn [from_option id];
    repeat match goal with o : Outcome _ |- _ => destruct o end;
    try (by exfalso; eapply Hr);
    unfold handleRegister_then, handleLogin_then, submitTask_then,
      fetchUsers_then, fetchTasks_then, fetchNotifications_then,
      fetchLogs_then, deleteTask_then, markNotificationRead_then,
      markAllReadLocal_then;
    repeat case_match; done.
Qed.

Lemma same_session_bootstrapEffect s : same_session s (bootstrapEffect s).
Proof.
  split; [apply same_sockets_bootstrapEffect|].
  unfold bootstrapEffect, fetchNotifications, fetchTasks, fetchUsers.
  repeat case_match; done.
Qed.

Lemma session_inv_afterUserChange u s :
  currentUser s = Some u →
  (∀ h, socketRef s = Some h →
     ∃ k, sockets s !! h = Some k ∧ sock_active k = true) →
  session_inv (afterUserChange s).
Proof.
  intros Hu Hheld. unfold afterUserChange.
  apply (same_session_inv _ _ (same_session_bootstrapEffect _)).
  assert (currentUser (socketEffect_cleanup s) = Some u) as Hu'
    by by rewrite currentUser_socketEffect_cleanup.
  assert (∀ h, socketRef (socketEffect_cleanup s) = Some h →
            ∃ k, sockets (socketEffect_cleanup s) !! h = Some k
                 ∧ sock_active k = true) as Hheld'.
  { rewrite socketRef_socketEffect_cleanup. intros h Hh.
    destruct (Hheld h Hh) as (k & Hk & Ha).
    unfold socketEffect_cleanup. destruct (effectSocket s) as [h0|]; [|eauto].
    simpl. destruct (decide (h = h0)) as [->|Hne].
    - rewrite list_lookup_alter_eq, Hk. simpl. eauto.
    - rewrite list_lookup_alter_ne by done. eauto. }
  revert Hu' Hheld'. generalize (socketEffect_cleanup s). clear.
  intros c Hu Hheld. unfold socketEffect. rewrite Hu.
  destruct (socketRef c) as [h0|] eqn:Ec; simpl; rewrite ?Ec.
  - destruct (Hheld h0 eq_refl) as (k & Hk & Ha). split; simpl.
    + rewrite Hu, Ec. by split.
    + intros h Hh. simpl in Hh. rewrite ?Ec in Hh. injection Hh as <-.
      rewrite list_lookup_alter_eq, Hk. simpl.
      eexists _, _. split_and!; done.
  - split; simpl.
    + rewrite Hu. by split.
    + intros h Hh. simpl in Hh. rewrite ?Ec in Hh. injection Hh as <-.
      rewrite list_lookup_alter_eq.
      rewrite lookup_app_r, Nat.sub_diag by done. simpl.
      eexists _, _. split_and!; done.
Qed.

Lemma session_inv_logged_out s :
  currentUser s = None → socketRef s = None →
  session_inv (afterUserChange s).
Proof.
  intros Hu Hr. rewrite afterUserChange_logged_out by done.
  split.
  - by rewrite currentUser_socketEffect_cleanup,
      socketRef_socketEffect_cleanup, Hu, Hr.
  - intros h. by rewrite socketRef_socketEffect_cleanup, Hr.
Qed.

Lemma session_inv_transport (f : SocketObj → SocketObj) h s :
  (∀ k, sock_active (f k) = sock_active k) →
  (∀ k, sock_onNotification (f k) = sock_onNotification k) →
  session_inv s → session_inv (with_sockets (alter f h) s).
Proof.
  intros Ha Hl [Hiff Hheld]. split; [done|]. simpl. intros h' Hh'.
  destruct (Hheld h' Hh') as (k & env & Hk & Hact & Hlis & Henv).
  destruct (decide (h' = h)) as [->|Hne].
  - rewrite list_lookup_alter_eq, Hk. simpl.
    exists (f k), env. by rewrite Ha, Hl.
  - rewrite list_lookup_alter_ne by done. eauto 10.
Qed.

Lemma session_inv_held s :
  session_inv s →
  ∀ h, socketRef s = Some h →
    ∃ k, sockets s !! h = Some k ∧ sock_active k = true.
Proof.
  intros [_ Hheld] h Hh. destruct (Hheld h Hh) as (k & env & ? & ? & _).
  eauto.
Qed.

Lemma session_inv_deliver k r now s :
  session_inv s → session_inv (deliver k r now s).
Proof.
  intros Hs.
  assert ((∃ o, r = ResLogin (Fulfilled o))
          ∨ (∀ o, r ≠ ResLogin (Fulfilled o))) as [[o ->]|Hr].
  { destruct r as [?|[o|?]|?|?|?|?|?|?|?]; eauto; right; intros;
      discriminate. }
  - unfold deliver. destruct (awaiting s !! k) as [aw|]; [|done].
    destruct aw; try done. simpl.
    eapply session_inv_afterUserChange; [reflexivity|].
    exact (session_inv_held s Hs).
  - eapply same_session_inv; [|done]. by apply same_session_deliver.
Qed.

Lemma session_inv_handle e s : session_inv s → session_inv (handle e s).
Proof.
  intros Hs. destruct e; unfold handle; destruct (currentUser s) eqn:Eu;
    try done; try by apply session_inv_deliver.
  all: try match goal with
           | |- session_inv (socketConnect _ _) =>
               unfold socketConnect; by apply session_inv_transport
           | |- session_inv (socketDrop _ _) =>
               unfold socketDrop; by apply session_inv_transport
           | |- session_inv (afterUserChange (handleLogout _ _)) =>
               apply session_inv_logged_out;
               unfold handleLogout; simpl; first [done | by case_match]
           end.
  all: eapply same_session_inv; [|exact Hs].
  all: split; [first [ apply same_sockets_push | unfold same_sockets ]|].
  all: unfold push, onNotification, clickNotification, filterEffect,
         bootstrapEffect, markAllReadLocal, markNotificationRead,
         fetchNotifications, fetchTasks, fetchUsers, fetchLogs,
         deleteTask, submitTask, handleLogin, handleRegister;
       repeat case_match; done.
Qed.

Lemma session_inv_render s : session_inv s → session_inv (render s).
Proof. apply same_session_inv. by repeat split. Qed.

Lemma session_inv_mount ls : session_inv (mount ls).
Proof.
  unfold mount. apply session_inv_render.
  destruct (ls_currentUser ls) as [[u|]|].
  - by eapply session_inv_afterUserChange.
  - by split.
  - by split.
Qed.

Lemma session_inv_run es s : session_inv s → session_inv (run s es).
Proof.
  revert s. induction es as [|e es IH]; intros s Hs; [done|].
  apply (IH (step s e)). unfold step.
  by apply session_inv_render, session_inv_handle.
Qed.

(** X9.  In every state the page reaches, the page holds a socket exactly
    while a user is logged in; the held socket is driven by the client and
    carries a listener created for the current user; every other socket
    object is disconnected for good and has no listener. *)
Theorem one_socket_per_session ls es :
  let s := run (mount ls) es in
  (currentUser s = None ↔ socketRef s = None)
  ∧ (∀ h, socketRef s = Some h →
       ∃ k env, sockets s !! h = Some k ∧ sock_active k = true
         ∧ sock_onNotification k = Some env
         ∧ c_currentUser env = currentUser s)
  ∧ (∀ h k,
       sockets s !! h = Some k → socketRef s ≠ Some h → k = bare).
Proof.
  cbv zeta.
  destruct (session_inv_run es _ (session_inv_mount ls)) as [Hiff Hheld].
  destruct (sockets_inv_run es _ (sockets_inv_mount ls)) as [He Hw].
  split_and!; [done..|].
  intros h k Hk Hh. destruct (Hw h k Hk Hh) as (? & ? & Hl).
  apply bare_of_down; try done. apply Hl. by rewrite He.
Qed.

(** ** Notifications on the page *)

Lemma handle_push h notif now s :
  handle (Push h notif now) s = push h notif now s.
Proof. unfold handle. by destruct (currentUser s). Qed.

Lemma push_live h k env notif now s :
  sockets s !! h = Some k → sock_connected k = true →
  sock_onNotification k = Some env →
  push h notif now s = onNotification env now notif s.
Proof. intros Hk Hc Hl. unfold push. by rewrite Hk, Hc, Hl. Qed.

Lemma sockets_step_push h notif now s :
  sockets (step s (Push h notif now)) = sockets s.
Proof.
  unfold step. rewrite handle_push.
  change (sockets (push h notif now s) = sockets s).
  apply same_sockets_push.
Qed.

Lemma notifications_step_push h k env notif now s :
  sockets s !! h = Some k → sock_connected k = true →
  sock_onNotification k = Some env →
  notifications (step s (Push h notif now)) = notif :: notifications s.
Proof.
  intros Hk Hc Hl. unfold step. rewrite handle_push.
  rewrite (push_live h k env) by done.
  apply (notifications_onNotification env now notif s).
Qed.

(** X10.  Notifications delivered one after the other on a connected socket
    with a listener are listed most recent first, in front of the entries
    the collection held before. *)
Theorem pushes_listed_most_recent_first s h k env
  (ps : list (INotification.t * Z)) :
  sockets s !! h = Some k → sock_connected k = true →
  sock_onNotification k = Some env →
  notifications (run s (map (λ p, Push h p.1 p.2) ps))
  = reverse (map fst ps) ++ notifications s.
Proof.
  revert s. induction ps as [|[n t] ps IH]; intros s Hk Hc Hl; [done|].
  change (run s (map (λ p, Push h p.1 p.2) ((n, t) :: ps)))
    with (run (step s (Push h n t)) (map (λ p, Push h p.1 p.2) ps)).
  rewrite IH by by rewrite ?sockets_step_push.
  rewrite (notifications_step_push h k env) by done.
  simpl map. by rewrite reverse_cons, <- app_assoc.
Qed.

Lemma unreadCount_reached ls es :
  unreadCount (run (mount ls) es)
  = count_unread (notifications (run (mount ls) es)).
Proof.
  pose proof (unreadMemo_run es _ (unreadMemo_mount ls)) as Hm.
  unfold unreadCount, unreadCount_memo, useMemo. rewrite Hm.
  by rewrite decide_True.
Qed.

Lemma unreadCount_reached_step ls es e :
  unreadCount (step (run (mount ls) es) e)
  = count_unread (notifications (handle e (run (mount ls) es))).
Proof.
  pose proof (unreadCount_reached ls (es ++ [e])) as H.
  unfold run in H. rewrite foldl_app in H. exact H.
Qed.

Lemma count_unread_readAll l : count_unread (map readAll l) = 0.
Proof.
  induction l as [|n l IH]; [done|]. simpl. by rewrite readAll_isRead.
Qed.

Lemma count_unread_readOne nid l :
  (count_unread (map (readOne nid) l) ≤ count_unread l)%nat.
Proof.
  induction l as [|n l IH]; [done|]. simpl. unfold readOne at 1.
  case_decide; simpl; destruct (INotification.isRead n); lia.
Qed.

(** X11.  In every state the page reaches, a notification delivered on a
    connected socket with a listener raises the unread count by one when it
    is unread and leaves it when it is read. *)
Theorem push_counts_unread ls es h k env notif now :
  let s := run (mount ls) es in
  sockets s !! h = Some k → sock_connected k = true →
  sock_onNotification k = Some env →
  unreadCount (step s (Push h notif now))
  = unreadCount s + (if INotification.isRead notif then 0 else 1).
Proof.
  cbv zeta. intros Hk Hc Hl.
  rewrite unreadCount_reached_step, unreadCount_reached, handle_push.
  rewrite (push_live h k env) by done.
  rewrite notifications_onNotification. simpl.
  destruct (INotification.isRead notif); lia.
Qed.

(** X12.  In every state the page reaches, the response to a read call,
    whatever it is and whatever call it answers, never raises the unread
    count. *)
Theorem confirm_never_raises_unread ls es k o now :
  let s := run (mount ls) es in
  (unreadCount (step s (Deliver k (ResPatch o) now)) ≤ unreadCount s)%nat.
Proof.
  cbv zeta. rewrite unreadCount_reached_step, unreadCount_reached.
  rewrite handle_deliver. generalize (run (mount ls) es). intros s.
  unfold deliver. destruct (awaiting s !! k) as [aw|]; [|done].
  destruct aw; try done; simpl.
  - destruct o as [[body|]|]; try done. simpl.
    destruct (success body); [|done]. apply count_unread_readOne.
  - destruct o as [[body|]|]; try done. simpl.
    destruct (success body); [|done]. simpl.
    change (count_unread (map readAll (notifications s))
            ≤ count_unread (notifications s))%nat.
    rewrite count_unread_readAll. lia.
Qed.

(** X13.  In every state the page reaches, a successful response to the
    mark-all-read call leaves the unread count at zero and every entry
    read, with the same ids in the same order. *)
Theorem mark_all_confirmed_clears_badge ls es k body now :
  let s := run (mount ls) es in
  awaiting s !! k = Some AwMarkAllRead → success body = true →
  let s' := step s (Deliver k (ResPatch (Fulfilled (Some body))) now) in
  unreadCount s' = 0
  ∧ Forall (λ n, INotification.isRead n = true) (notifications s')
  ∧ map INotification.key (notifications s')
    = map INotification.key (notifications s).
Proof.
  cbv zeta. intros Hk Hok.
  rewrite unreadCount_reached_step, handle_deliver.
  generalize dependent (run (mount ls) es). intros s Hk.
  erewrite (step_deliver_awaited k AwMarkAllRead); [|done|reflexivity].
  unfold deliver. rewrite Hk. simpl. rewrite Hok. simpl.
  change (map (λ n, if INotification.isRead n then n
                    else INotification.withRead n) ?l)
    with (map readAll l).
  split_and!.
  - apply count_unread_readAll.
  - apply Forall_forall. intros n (m & -> & _)%list_elem_of_fmap.
    apply readAll_isRead.
  - rewrite map_map. apply map_ext, readAll_key.
Qed.

(** X14.  The click on an unread notification issues one mark-one-read call
    for [n._id || n.id || ""] and changes no entry; the successful response
    marks the entries with that id read.  The clicked entry itself is read
    afterwards exactly when [n._id || n.id] is a string: for an entry with
    an empty [_id] and no [id] the call is sent for the empty id and the
    entry stays unread. *)
Theorem click_then_confirm_marks_read s u i n body now :
  currentUser s = Some u →
  notifications s !! i = Some n → INotification.isRead n = false →
  success body = true →
  let id := default "" (jsOr (INotification.key n) (Some "")) in
  let s1 := step s (ClickNotification i) in
  let s2 := step s1 (Deliver (length (requests s))
                       (ResPatch (Fulfilled (Some body))) now) in
  issued s s1 = [PatchRead (getUserId u) id]
  ∧ notifications s1 = notifications s
  ∧ notifications s2 = map (readOne id) (notifications s)
  ∧ INotification.isRead <$> (notifications s2 !! i)
    = Some (bool_decide (is_Some (INotification.key n))).
Proof.
  intros Hu Hi Hn Hok; cbv zeta.
  assert (step s (ClickNotification i)
          = render
              (await
                 (PatchRead (getUserId u)
                    (default "" (jsOr (INotification.key n) (Some ""))))
                 (AwMarkNotificationRead
                    (default "" (jsOr (INotification.key n) (Some ""))))
                 s)) as ->.
  { unfold step, handle, clickNotification, markNotificationRead.
    rewrite Hu, Hi, Hn. simpl. by rewrite Hu. }
  erewrite (step_deliver_awaited _ (AwMarkNotificationRead _));
    [|apply lookup_insert_eq|reflexivity].
  simpl. rewrite Hok. split_and!.
  - apply issued_await.
  - reflexivity.
  - reflexivity.
  - simpl. change (map ?f ?l) with (f <$> l).
    rewrite list_lookup_fmap, Hi. simpl. f_equal. unfold readOne.
    destruct (INotification.key n) as [[|a x]|] eqn:Hkey; simpl.
    + done.
    + rewrite decide_True by done. done.
    + rewrite Hn. done.
Qed.

(** ** Filters and the calls they issue *)

Lemma sockets_changesFilter e s :
  changesFilter e = true → sockets (step s e) = sockets s.
Proof.
  intros He. change (sockets (step s e)) with (sockets (handle e s)).
  destruct e; try discriminate He; unfold handle;
    destruct (currentUser s); try done;
    unfold filterEffect, bootstrapEffect, fetchNotifications, fetchTasks,
      fetchUsers; repeat case_match; done.
Qed.

(** X15.  The tasks fetch that a pushed notification triggers uses the
    filters of the render in which the listener was attached, not the
    current ones: after any change of a filter, the push issues the same
    call as before the change. *)
Theorem push_refetches_with_listener_filters s e h k env u notif now :
  sockets s !! h = Some k → sock_connected k = true →
  sock_onNotification k = Some env → c_currentUser env = Some u →
  changesFilter e = true →
  let s' := step s e in
  issued s' (step s' (Push h notif now)) = [GetMyTasks (taskParams env)]
  ∧ issued s (step s (Push h notif now)) = [GetMyTasks (taskParams env)].
Proof.
  intros Hk Hc Hl Hu He; cbv zeta.
  assert (∀ x, sockets x !! h = Some k →
            issued x (step x (Push h notif now))
            = [GetMyTasks (taskParams env)]) as Hpush.
  { intros x Hx. unfold step. rewrite handle_push.
    rewrite (push_live h k env) by done.
    unfold onNotification, fetchTasks. rewrite Hu.
    unfold issued, await; simpl. by rewrite drop_app_length. }
  split; apply Hpush; [|done]. by rewrite sockets_changesFilter.
Qed.

(** X16.  For a logged-in user, choosing a status filter issues one tasks
    fetch with the new filters, and none when the value chosen is the
    current one; choosing a scope issues the three bootstrap fetches in
    order, and none when the scope chosen is the current one. *)
Theorem filter_change_issues_calls s u v w :
  currentUser s = Some u →
  issued s (step s (ChangeFilterStatus v))
  = (if decide (v = filterStatus s) then []
     else [GetMyTasks
             (taskParams (closure_of (setFilterStatus (const v) s)))])
  ∧ issued s (step s (ChangeScope w))
    = (if decide (w = scope s) then []
       else [GetUsers;
             GetMyTasks (taskParams (closure_of (setScope (const w) s)));
             GetNotifications (getUserId u)]).
Proof.
  intros Hu. unfold step, handle. rewrite Hu. split.
  - case_decide; [by apply issued_none|].
    unfold filterEffect, fetchTasks; simpl. rewrite Hu. simpl.
    unfold issued, await; simpl. by rewrite drop_app_length.
  - case_decide; [by apply issued_none|].
    unfold bootstrapEffect, fetchNotifications, fetchTasks, fetchUsers;
      simpl. rewrite Hu. simpl.
    unfold issued, await; simpl.
    rewrite <- !app_assoc. by rewrite drop_app_length.
Qed.

(** X17.  The query of a tasks fetch names each of [filter], [status],
    [priority] and [q] at most once and in that order; it is empty exactly
    for the scope all, the status all, the priority all and an empty
    search; it carries the search text exactly when that is not empty. *)
Theorem taskParams_keys env :
  NoDup (map fst (taskParams env))
  ∧ sublist (map fst (taskParams env)) ["filter"; "status"; "priority"; "q"]
  ∧ (taskParams env = [] ↔
       c_scope env = ScopeAll ∧ c_filterStatus env = "all"
       ∧ c_filterPriority env = "all" ∧ c_searchTerm env = "")
  ∧ (("q", c_searchTerm env) ∈ taskParams env ↔ c_searchTerm env ≠ "").
Proof.
  unfold taskParams.
  destruct (c_scope env) eqn:Hscope;
    destruct (decide (c_filterStatus env ≠ "all")) as [Hst|Hst];
    destruct (decide (c_filterPriority env ≠ "all")) as [Hpr|Hpr];
    destruct (c_searchTerm env) as [|a x] eqn:Hq; simpl.
  all: split; [apply (bool_decide_unpack _); vm_compute; exact I|].
  all: split; [eauto 8 using sublist_nil, sublist_skip, sublist_cons|].
  all: apply dec_stable in Hst || idtac; apply dec_stable in Hpr || idtac.
  all: split; (split; [intros Hx|intros Hy]).
  all: try discriminate Hx; try done.
  all: try (destruct Hy as (? & ? & ? & ?); done).
  all: try (repeat (apply elem_of_cons in Hx as [Hx|Hx];
                    [discriminate Hx|]); by apply elem_of_nil in Hx).
  all: repeat first [ apply list_elem_of_here | apply list_elem_of_further ].
Qed.

(** ** Login, reload and logout *)

Lemma currentUser_socketEffect s :
  currentUser (socketEffect s) = currentUser s.
Proof.
  unfold socketEffect. destruct (currentUser s) eqn:Hu; [|done].
  destruct (socketRef s) eqn:Er; simpl; rewrite ?Er; simpl; done.
Qed.

Lemma login_response_effects s k body now :
  awaiting s !! k = Some AwLogin →
  let u := user body in
  let s' := step s (Deliver k (ResLogin (Fulfilled body)) now) in
  currentUser s' = Some u
  ∧ localStorage s' = mkStorage (Some (token body)) (Some (Some u))
  ∧ issued s s'
    = [GetUsers; GetMyTasks (taskParams (closure_of s));
       GetNotifications (getUserId u)]
  ∧ loading s' = true
  ∧ last (toasts s')
    = Some (ToastItem.mk (toString now)
              ("Welcome back, " ++ IUser.username u ++ "!"))
  ∧ tasks s' = tasks s ∧ notifications s' = notifications s.
Proof.
  intros Hk; cbv zeta.
  erewrite (step_deliver_awaited k AwLogin); [|done|reflexivity].
  unfold afterUserChange, bootstrapEffect.
  set (s0 := handleLogin_then now (Fulfilled body)
               (with_awaiting (delete k) s)).
  assert (currentUser (socketEffect (socketEffect_cleanup s0))
          = Some (user body)) as Hu.
  { by rewrite currentUser_socketEffect, currentUser_socketEffect_cleanup. }
  rewrite Hu.
  assert (∀ x,
            (loading (socketEffect (socketEffect_cleanup x)),
             requests (socketEffect (socketEffect_cleanup x)),
             localStorage (socketEffect (socketEffect_cleanup x)),
             toasts (socketEffect (socketEffect_cleanup x)),
             tasks (socketEffect (socketEffect_cleanup x)),
             notifications (socketEffect (socketEffect_cleanup x)),
             scope (socketEffect (socketEffect_cleanup x)),
             filterStatus (socketEffect (socketEffect_cleanup x)),
             filterPriority (socketEffect (socketEffect_cleanup x)),
             searchTerm (socketEffect (socketEffect_cleanup x)))
            = (loading x, requests x, localStorage x, toasts x, tasks x,
               notifications x, scope x, filterStatus x, filterPriority x,
               searchTerm x)) as Hframe.
  { intros x. unfold socketEffect, socketEffect_cleanup.
    repeat case_match; reflexivity. }
  specialize (Hframe s0).
  injection Hframe as Hl Hr Hls Ht Hta Hn Hsc Hfs Hfp Hst.
  unfold fetchNotifications, fetchTasks, fetchUsers; simpl. rewrite Hu.
  simpl. rewrite Hu. split_and!; try done.
  - unfold issued; simpl. rewrite Hr; simpl. rewrite <- !app_assoc.
    rewrite drop_app_length. unfold taskParams; simpl.
    by rewrite Hsc, Hfs, Hfp, Hst.
  - rewrite Ht. simpl. by rewrite last_snoc.
Qed.

(** X18.  A successful login response stores the user in the page and the
    token and user in [localStorage], shows the welcome toast, and runs the
    bootstrap: exactly the users fetch, the tasks fetch with the current
    filters and the notifications fetch of the new user, in that order,
    with [loading] set; tasks and notifications are as before until those
    answer. *)
Theorem login_response_bootstraps s k body now :
  awaiting s !! k = Some AwLogin →
  let u := user body in
  let s' := step s (Deliver k (ResLogin (Fulfilled body)) now) in
  currentUser s' = Some u
  ∧ localStorage s' = mkStorage (Some (token body)) (Some (Some u))
  ∧ issued s s'
    = [GetUsers; GetMyTasks (taskParams (closure_of s));
       GetNotifications (getUserId u)]
  ∧ loading s' = true
  ∧ last (toasts s')
    = Some (ToastItem.mk (toString now)
              ("Welcome back, " ++ IUser.username u ++ "!"))
  ∧ tasks s' = tasks s ∧ notifications s' = notifications s.
Proof. exact (login_response_effects s k body now). Qed.

(** X19.  A page mounted over the [localStorage] left by a successful login
    has the logged-in user and issues the three bootstrap fetches with the
    default filters; a page mounted over the [localStorage] left by a
    logout has no user and issues no call. *)
Theorem session_survives_reload s k body now now' :
  awaiting s !! k = Some AwLogin →
  let s' := step s (Deliver k (ResLogin (Fulfilled body)) now) in
  currentUser (mount (localStorage s')) = Some (user body)
  ∧ requests (mount (localStorage s'))
    = [GetUsers; GetMyTasks []; GetNotifications (getUserId (user body))]
  ∧ currentUser (mount (localStorage (handleLogout now' s'))) = None
  ∧ requests (mount (localStorage (handleLogout now' s'))) = [].
Proof.
  intros Hk; cbv zeta.
  destruct (login_response_effects s k body now Hk)
    as (_ & Hls & _). cbv zeta in Hls. rewrite Hls.
  assert (∀ x, localStorage (handleLogout now' x) = mkStorage None None)
    as -> by (intros x; unfold handleLogout; simpl; by case_match).
  split_and!; reflexivity.
Qed.


Lemma awaiting_step_logout now s :
  awaiting (step s (ClickLogout now)) = awaiting s.
Proof.
  change (awaiting (step s (ClickLogout now)))
    with (awaiting (handle (ClickLogout now) s)).
  unfold handle. destruct (currentUser s); [|done].
  rewrite afterUserChange_logged_out
    by (unfold handleLogout; simpl; by case_match).
  unfold socketEffect_cleanup, handleLogout; simpl.
  repeat case_match; reflexivity.
Qed.

(** X21.  Logout does not drop the calls in flight: a tasks response and a
    notifications response that arrive after the logout are stored in the
    page although no user is logged in. *)
Theorem response_after_logout_is_still_stored s k1 k2 tbody nbody now t1 t2 :
  currentUser s ≠ None → k1 ≠ k2 →
  awaiting s !! k1 = Some AwFetchTasks →
  awaiting s !! k2 = Some AwFetchNotifications →
  let s' := run s [ClickLogout now;
                   Deliver k1 (ResTasks (Fulfilled tbody)) t1;
                   Deliver k2 (ResNotifications (Fulfilled nbody)) t2] in
  currentUser s' = None
  ∧ tasks s' = listOf tbody
  ∧ notifications s' = listOf nbody.
Proof.
  intros Hu Hne H1 H2; cbv zeta. unfold run; simpl foldl.
  assert (currentUser (step s (ClickLogout now)) = None) as Hout.
  { change (currentUser (handle (ClickLogout now) s) = None).
    unfold handle. destruct (currentUser s); [|done].
    rewrite afterUserChange_logged_out
      by (unfold handleLogout; simpl; by case_match).
    rewrite currentUser_socketEffect_cleanup.
    unfold handleLogout; simpl; by case_match. }
  pose proof (awaiting_step_logout now s) as Haw.
  revert Hout Haw. generalize (step s (ClickLogout now)).
  intros x Hout Haw.
  erewrite (step_deliver_awaited k1 AwFetchTasks _ _ x);
    [|by rewrite Haw|reflexivity].
  erewrite (step_deliver_awaited k2 AwFetchNotifications);
    [|simpl; by rewrite lookup_delete_ne, Haw|reflexivity].
  done.
Qed.

(** ** Dismissing toasts *)

(** X22.  Dismissing a toast id twice is dismissing it once, dismissals of
    two ids commute, dismissing an id that is not in the queue changes
    nothing, and after a dismissal no toast with that id is left. *)
Theorem removeToast_idempotent_and_absent id id' s :
  removeToast id (removeToast id s) = removeToast id s
  ∧ removeToast id (removeToast id' s) = removeToast id' (removeToast id s)
  ∧ (id ∉ map ToastItem.id (toasts s) → removeToast id s = s)
  ∧ id ∉ map ToastItem.id (toasts (removeToast id s)).
Proof.
  split_and!.
  - unfold removeToast. destruct s; simpl. unfold setToasts; simpl. f_equal.
    apply list_filter_filter_r. tauto.
  - unfold removeToast. destruct s; simpl. unfold setToasts; simpl. f_equal.
    rewrite !list_filter_filter. apply list_filter_iff. tauto.
  - intros Hid. unfold removeToast. destruct s; simpl in *.
    unfold setToasts; simpl. f_equal. apply filter_keeps_all.
    apply Forall_forall. intros x Hx Heq. apply Hid.
    rewrite <- Heq. apply list_elem_of_fmap. eauto.
  - rewrite toasts_removeToast.
    intros (x & Hid & Hx%list_elem_of_filter)%list_elem_of_fmap.
    destruct Hx as [Hne _]. by apply Hne.
Qed.

(** ** Instances of the further properties *)

Lemma create_then_delete_restores_tasks_witness :
  tasks (step (step (step drafting (Deliver 4 (ResTask (Fulfilled taskC)) 1250))
                 (ClickDelete 0 true))
           (Deliver (length (requests drafting)) (ResDelete (Fulfilled ()))
              1300))
  = tasks drafting.
Proof.
  apply (create_then_delete_restores_tasks drafting 4 taskC 1250 1300).
  - vm_compute. discriminate.
  - vm_compute. reflexivity.
  - apply (bool_decide_unpack _). vm_compute. exact I.
Defined.

Lemma logs_response_and_delete_witness :
  logsByTask (run log_and_delete
                [Deliver 5 (ResDelete (Fulfilled ())) 1300;
                 Deliver 4 (ResLogs (Fulfilled (BodyArray [logA]))) 1301])
  = <[ "t1" := [logA] ]> (logsByTask log_and_delete).
Proof.
  apply (logs_response_and_delete_in_either_order log_and_delete 4 5 "t1"
           (BodyArray [logA]) 1301 1300).
  - lia.
  - vm_compute. reflexivity.
  - vm_compute. reflexivity.
Defined.

Lemma rejected_response_keeps_data_witness :
  tasks (step filtering (Deliver 4 (ResTasks (Rejected None)) 1400))
  = tasks filtering.
Proof.
  apply (rejected_response_keeps_data filtering 4
           (ResTasks (Rejected None)) 1400).
  reflexivity.
Defined.

Lemma rejected_response_toasts_once_witness :
  length (console (step filtering (Deliver 4 (ResTasks (Rejected None)) 1400)))
  = length (console filtering) + 1.
Proof.
  apply (rejected_response_toasts_once filtering 4 AwFetchTasks
           (ResTasks (Rejected None)) 1400).
  - vm_compute. reflexivity.
  - vm_compute. eauto.
  - reflexivity.
Defined.

Lemma toast_ids_distinct_witness :
  NoDup (map ToastItem.id
           (toasts (run (mount (mkStorage None None))
                      (login_alice ++
                       [Deliver 1 (ResUsers (Rejected None)) 5000;
                        Deliver 2 (ResTasks (Rejected None)) 5001])))).
Proof.
  apply (toast_ids_distinct_on_increasing_clock (mkStorage None None)
           (login_alice ++
            [Deliver 1 (ResUsers (Rejected None)) 5000;
             Deliver 2 (ResTasks (Rejected None)) 5001]) 0).
  vm_compute. repeat split.
Defined.

Lemma logout_leaves_no_socket_up_witness :
  socketRef (step (run (mount (mkStorage None None)) login_alice)
               (ClickLogout 2000)) = None.
Proof.
  apply (logout_leaves_no_socket_up (mkStorage None None) login_alice 2000).
  vm_compute. discriminate.
Defined.

Lemma pushes_listed_most_recent_first_witness :
  notifications
    (run loaded (map (λ p, Push 0 p.1 p.2) [(n2, 1500%Z); (n1, 1501%Z)]))
  = reverse (map fst [(n2, 1500%Z); (n1, 1501%Z)]) ++ notifications loaded.
Proof.
  eapply (pushes_listed_most_recent_first loaded 0).
  - vm_compute. reflexivity.
  - reflexivity.
  - reflexivity.
Defined.

Lemma push_counts_unread_witness :
  unreadCount (step (run (mount (mkStorage None None)) login_alice)
                 (Push 0 n2 1500))
  = unreadCount (run (mount (mkStorage None None)) login_alice)
    + (if INotification.isRead n2 then 0 else 1).
Proof.
  eapply (push_counts_unread (mkStorage None None) login_alice 0).
  - vm_compute. reflexivity.
  - reflexivity.
  - reflexivity.
Defined.

Lemma mark_all_confirmed_clears_badge_witness :
  unreadCount
    (step (run (mount (mkStorage None None))
             (login_alice ++
              [Deliver 3 (ResNotifications (Fulfilled (BodyArray [n1; n2])))
                 1102;
               ClickMarkAllRead 1700]))
       (Deliver 4 (ResPatch (Fulfilled (Some (mkPatchBody true "2")))) 1701))
  = 0.
Proof.
  apply (mark_all_confirmed_clears_badge (mkStorage None None)
           (login_alice ++
            [Deliver 3 (ResNotifications (Fulfilled (BodyArray [n1; n2])))
               1102;
             ClickMarkAllRead 1700]) 4 (mkPatchBody true "2") 1701).
  - vm_compute. reflexivity.
  - reflexivity.
Defined.

Lemma click_then_confirm_marks_read_witness :
  INotification.isRead
    <$> (notifications
           (step (step loaded (ClickNotification 0))
              (Deliver (length (requests loaded))
                 (ResPatch (Fulfilled (Some (mkPatchBody true "1")))) 1600))
         !! 0)
  = Some (bool_decide (is_Some (INotification.key n1))).
Proof.
  apply (click_then_confirm_marks_read loaded alice 0 n1
           (mkPatchBody true "1") 1600).
  - vm_compute. reflexivity.
  - vm_compute. reflexivity.
  - reflexivity.
  - reflexivity.
Defined.

Lemma push_refetches_with_listener_filters_witness :
  issued (step loaded (ChangeFilterStatus "Pending"))
    (step (step loaded (ChangeFilterStatus "Pending")) (Push 0 n2 1500))
  = [GetMyTasks (taskParams login_closure)].
Proof.
  assert (sockets loaded !! 0 = Some (mkSocket true true (Some login_closure)))
    as Hk by (vm_compute; reflexivity).
  destruct (push_refetches_with_listener_filters loaded
              (ChangeFilterStatus "Pending") 0 _ login_closure alice n2 1500
              Hk eq_refl eq_refl eq_refl eq_refl) as [H _].
  exact H.
Defined.

Lemma filter_change_issues_calls_witness :
  issued loaded (step loaded (ChangeFilterStatus "Pending"))
  = (if decide ("Pending" = filterStatus loaded) then []
     else [GetMyTasks
             (taskParams
                (closure_of (setFilterStatus (const "Pending") loaded)))]).
Proof.
  apply (filter_change_issues_calls loaded alice "Pending" ScopeCreated).
  vm_compute. reflexivity.
Defined.

Lemma login_response_bootstraps_witness :
  currentUser (step logging_in
                 (Deliver 0 (ResLogin (Fulfilled (mkLoginBody "tok" alice)))
                    1000))
  = Some alice.
Proof.
  apply (login_response_bootstraps logging_in 0 (mkLoginBody "tok" alice) 1000).
  vm_compute. reflexivity.
Defined.

Lemma session_survives_reload_witness :
  currentUser
    (mount (localStorage
              (step logging_in
                 (Deliver 0 (ResLogin (Fulfilled (mkLoginBody "tok" alice)))
                    1000))))
  = Some alice.
Proof.
  apply (session_survives_reload logging_in 0 (mkLoginBody "tok" alice)
           1000 2000).
  vm_compute. reflexivity.
Defined.

Lemma response_after_logout_witness :
  tasks (run logged_in
           [ClickLogout 2000;
            Deliver 2 (ResTasks (Fulfilled (BodyArray [taskA]))) 2001;
            Deliver 3 (ResNotifications (Fulfilled (BodyArray [n1]))) 2002])
  = listOf (BodyArray [taskA]).
Proof.
  apply (response_after_logout_is_still_stored logged_in 2 3
           (BodyArray [taskA]) (BodyArray [n1]) 2000 2001 2002).
  - vm_compute. discriminate.
  - lia.
  - vm_compute. reflexivity.
  - vm_compute. reflexivity.
Defined.
